(** * BraTS data module: patient discovery, validation and train/val split

  A shallow embedding of [src/data_module.py] (class [BraTSDataModule]) and
  of the library calls it makes, followed by the properties of [setup] and
  of the two loader methods.

  The embedding, in the order of the file:
  - [PosixPath]: [os.path.join], [os.path.basename], [os.path.split] (the
                 POSIX flavour, separator "/");
  - [FileSystem]: the three calls by which [setup] looks at the disk;
  - [Glob]     : [glob.glob] on patterns of the shape [<dir>/*], over the
                 directory listing of the kernel;
  - [Float64]  : the binary64 product and ceiling behind the test size;
  - [Sklearn]  : [train_test_split] (size validation, shuffled indices,
                 indexing), over an abstract generator;
  - [Monai], [Torch]: the dataset constructor, which fills its cache by
                 running an abstract transform pipeline on the records,
                 and the loader constructor with its argument checks;
  - the data module: [init], [setup] as a program on the object and the
    standard output that returns or raises, [train_dataloader] and
    [val_dataloader].

  Strings are byte strings (UTF-8); their lexicographic order on bytes is
  the order of Python's [str] on code points. *)

From Stdlib Require Import ZArith Ascii.
From stdpp Require Import base tactics option list strings sorting pretty.

Local Open Scope nat_scope.
Local Open Scope stdpp_scope.

(** ** [posixpath]: pure functions on path strings *)

Module PosixPath.

Definition sep : ascii := "/"%char.

Definition is_sep (c : ascii) : bool := Ascii.eqb c sep.

(** [b.startswith(sep)] *)
Definition startswith_sep (s : string) : bool :=
  match s with
  | String c _ => is_sep c
  | EmptyString => false
  end.

(** [path.endswith(sep)] *)
Fixpoint endswith_sep (s : string) : bool :=
  match s with
  | EmptyString => false
  | String c EmptyString => is_sep c
  | String _ s' => endswith_sep s'
  end.

(** [sep in s] *)
Fixpoint contains_sep (s : string) : bool :=
  match s with
  | EmptyString => false
  | String c s' => is_sep c || contains_sep s'
  end.

(** [s == sep * len(s)] *)
Fixpoint all_sep (s : string) : bool :=
  match s with
  | EmptyString => true
  | String c s' => is_sep c && all_sep s'
  end.

(** [s.rstrip(sep)] *)
Fixpoint rstrip_sep (s : string) : string :=
  match s with
  | EmptyString => EmptyString
  | String c s' => if is_sep c && all_sep s' then EmptyString
                   else String c (rstrip_sep s')
  end.

(** [os.path.join(a, b)]:
<<
    if b.startswith(sep):               path = b
    elif not path or path.endswith(sep): path += b
    else:                                path += sep + b
>> *)
Definition join (a b : string) : string :=
  if startswith_sep b then b
  else if String.eqb a "" || endswith_sep a then a +:+ b
  else a +:+ "/" +:+ b.

(** [p[:i]] for [i = p.rfind(sep) + 1]: everything up to and including the
    last separator (empty when there is none). *)
Fixpoint head_upto_sep (p : string) : string :=
  match p with
  | EmptyString => EmptyString
  | String c p' =>
      if contains_sep p' then String c (head_upto_sep p')
      else if is_sep c then String c EmptyString
      else EmptyString
  end.

(** [os.path.basename(p)], that is [p[i:]] for [i = p.rfind(sep) + 1]:
    everything after the last separator (all of [p] when there is none). *)
Fixpoint basename (p : string) : string :=
  match p with
  | EmptyString => EmptyString
  | String c p' =>
      if contains_sep p' then basename p'
      else if is_sep c then p'
      else p
  end.

(** [os.path.split(p)]:
<<
    i = p.rfind(sep) + 1
    head, tail = p[:i], p[i:]
    if head and head != sep*len(head): head = head.rstrip(sep)
    return head, tail
>> *)
Definition split (p : string) : string * string :=
  let head := head_upto_sep p in
  let tail := basename p in
  (if negb (String.eqb head "") && negb (all_sep head) then rstrip_sep head
   else head, tail).

End PosixPath.

(** ** Exceptions and results *)

Inductive exn :=
  | FileNotFoundError (msg : string)
  | ValueError
  | IndexError
  | RuntimeError (msg : string).

Inductive result (A : Type) :=
  | Ok (a : A)
  | Raise (e : exn).
Arguments Ok {A} a.
Arguments Raise {A} e.

#[export] Instance result_ret : MRet result := @Ok.
#[export] Instance result_bind : MBind result := λ A B f r,
  match r with
  | Ok a => f a
  | Raise e => Raise e
  end.

(** ** The operating system as seen by the code *)

(** [setup] touches the disk through three calls only: [glob.glob],
    [os.path.isdir] and [os.path.exists]. *)
Record FileSystem := {
  glob_glob : string → list string;
  os_path_isdir : string → bool;
  os_path_exists : string → bool;
}.

(** ** [glob.glob] on a pattern [<dir>/*] *)

Module Glob.

(** What the kernel offers: the names in a directory ([None] stands for the
    [OSError] of [os.scandir]), and the two path tests. *)
Record OS := {
  scandir : string → option (list string);
  isdir : string → bool;
  exists_ : string → bool;
}.

Definition is_magic_char (c : ascii) : bool :=
  Ascii.eqb c "*" || Ascii.eqb c "?" || Ascii.eqb c "[".

(** [glob.has_magic]: does the string contain one of [*], [?], [[] *)
Fixpoint has_magic (s : string) : bool :=
  match s with
  | EmptyString => false
  | String c s' => is_magic_char c || has_magic s'
  end.

(** [glob._ishidden]: [path[0] == '.'] *)
Definition ishidden (name : string) : bool :=
  match name with
  | String c _ => Ascii.eqb c "."
  | EmptyString => false
  end.

(** [glob._listdir]: the names in [dirname] (the current directory when
    [dirname] is empty); an [OSError] is swallowed and gives no name. *)
Definition listdir (os : OS) (dirname : string) : list string :=
  match scandir os (if String.eqb dirname "" then "." else dirname) with
  | Some names => names
  | None => []
  end.

(** [glob._glob1(dirname, "*")]: hidden names are dropped, and every other
    name matches the pattern [*]. *)
Definition glob1_star (os : OS) (dirname : string) : list string :=
  filter (λ name, ishidden name = false) (listdir os dirname).

(** [glob.glob(pathname)] for a [pathname] whose last component is [*] and
    whose directory part holds no [*], [?] or [[] (with one of these the
    library expands the directory part as a pattern too, which is outside
    this model):
<<
    dirname, basename = os.path.split(pathname)
    if not dirname:  yield from _glob1(root_dir, basename)
    else:            for name in _glob1(dirname, basename):
                         yield os.path.join(dirname, name)
>> *)
Definition glob (os : OS) (pathname : string) : list string :=
  let '(dirname, _) := PosixPath.split pathname in
  if String.eqb dirname "" then glob1_star os ""
  else PosixPath.join dirname <$> glob1_star os dirname.

(** The file system interface of [setup], over a kernel. *)
Definition file_system (os : OS) : FileSystem := {|
  glob_glob := glob os;
  os_path_isdir := isdir os;
  os_path_exists := exists_ os;
|}.

(** A root directory given as a plain path: not empty, no trailing
    separator, no pattern character. *)
Definition plain_root (data_dir : string) : Prop :=
  data_dir ≠ "" ∧ PosixPath.endswith_sep data_dir = false
  ∧ has_magic data_dir = false.

(** Directory entries are non-empty names without a separator, and a
    directory lists each name once. *)
Definition wf_name (name : string) : Prop :=
  name ≠ "" ∧ PosixPath.contains_sep name = false.

Definition wf_listing (os : OS) (dirname : string) : Prop :=
  Forall wf_name (listdir os dirname) ∧ NoDup (listdir os dirname).

End Glob.

(** ** IEEE-754 binary64 arithmetic, as far as the split uses it *)

Module Float64.

(** A finite non-negative double: the value [mant * 2 ^ expo]. *)
Record t := mk { mant : Z; expo : Z }.

(** Rounding of the exact value [m * 2 ^ e] to a 53-bit significand, to
    nearest, ties to even. *)
Definition round (m e : Z) : t :=
  let drop := (Z.log2 m - 52)%Z in
  if (drop <=? 0)%Z then mk m e
  else
    let q := (m / 2 ^ drop)%Z in
    let r := (m mod 2 ^ drop)%Z in
    let half := (2 ^ (drop - 1))%Z in
    let q' := if (half <? r)%Z || ((half =? r)%Z && Z.odd q)
              then (q + 1)%Z else q in
    mk q' (e + drop).

(** [float(n)] for a Python [int] [n >= 0] *)
Definition of_int (n : Z) : t := round n 0.

(** [x * y] *)
Definition mul (x y : t) : t :=
  round (mant x * mant y) (expo x + expo y).

(** [math.ceil(x)] *)
Definition ceil (x : t) : Z :=
  if (0 <=? expo x)%Z then (mant x * 2 ^ expo x)%Z
  else (- (- mant x / 2 ^ (- expo x)))%Z.

(** [int(x)]: truncation towards zero *)
Definition to_int (x : t) : Z :=
  if (0 <=? expo x)%Z then (mant x * 2 ^ expo x)%Z
  else (mant x ÷ 2 ^ (- expo x))%Z.

(** [x <= 0] and [x >= 1] *)
Definition le_zero (x : t) : bool := (mant x <=? 0)%Z.
Definition ge_one (x : t) : bool :=
  if (0 <=? expo x)%Z then (1 <=? mant x)%Z
  else (2 ^ (- expo x) <=? mant x)%Z.

(** The literal [0.2]: the double [0x3FC999999999999A]. *)
Definition lit_0_2 : t := mk 3602879701896397 (-54).

End Float64.

(** ** [numpy.random.RandomState] and [sklearn.model_selection] *)

(** The Mersenne Twister behind [RandomState] is kept abstract: a state
    type, the seeding, and [rk_interval max], which draws a number in
    [0..max] and advances the state. *)
Record BitGenerator := {
  rk_state : Type;
  rk_seed : Z → rk_state;
  rk_interval : nat → rk_state → nat * rk_state;
  rk_interval_le : ∀ max s, (rk_interval max s).1 ≤ max;
}.

Module Sklearn.

Section with_generator.
Context (G : BitGenerator).

(** [x[i], x[j] = x[j], x[i]] *)
Definition swap (x : list nat) (i j : nat) : list nat :=
  let xi := x !!! i in
  let xj := x !!! j in
  <[j := xi]> (<[i := xj]> x).

(** The loop of [RandomState.shuffle] on a one-dimensional array:
<<
    for i in reversed(range(1, n)):
        j = rk_interval(i, state)
        x[i], x[j] = x[j], x[i]
>>
    [shuffle_raw i x s] runs the iterations [i, i-1, ..., 1]. *)
Fixpoint shuffle_raw (i : nat) (x : list nat) (s : rk_state G)
  : list nat * rk_state G :=
  match i with
  | 0 => (x, s)
  | S i' =>
      let '(j, s') := rk_interval G i s in
      shuffle_raw i' (swap x i j) s'
  end.

(** [RandomState(seed).permutation(n)]: [arange(n)], shuffled. *)
Definition permutation (seed : Z) (n : nat) : list nat :=
  (shuffle_raw (n - 1) (seq 0 n) (rk_seed G seed)).1.

(** [_validate_shuffle_split(n_samples, test_size, train_size=None)] for a
    float [test_size]:
<<
    if test_size <= 0 or test_size >= 1: raise ValueError
    n_test = ceil(test_size * n_samples)
    n_train = n_samples - n_test
    if n_train == 0: raise ValueError
    return n_train, n_test
>> *)
Definition validate_shuffle_split (n_samples : nat) (test_size : Float64.t)
  : result (nat * nat) :=
  if Float64.le_zero test_size || Float64.ge_one test_size then Raise ValueError
  else
    let n_test :=
      Z.to_nat (Float64.ceil
                  (Float64.mul test_size (Float64.of_int (Z.of_nat n_samples)))) in
    let n_train := n_samples - n_test in
    if n_train =? 0 then Raise ValueError
    else Ok (n_train, n_test).

(** [_safe_indexing(X, indices)] on a Python list:
    [[X[idx] for idx in indices]] *)
Fixpoint safe_indexing {A} (X : list A) (indices : list nat) : result (list A) :=
  match indices with
  | [] => Ok []
  | idx :: rest =>
      match X !! idx with
      | Some x => xs ← safe_indexing X rest; Ok (x :: xs)
      | None => Raise IndexError
      end
  end.

(** [train_test_split(arrays, test_size=..., random_state=...)], with
    [ShuffleSplit._iter_indices] inlined:
<<
    n_train, n_test = _validate_shuffle_split(n_samples, test_size, None)
    permutation = rng.permutation(n_samples)
    ind_test = permutation[:n_test]
    ind_train = permutation[n_test:(n_test + n_train)]
    return [_safe_indexing(a, ind_train), _safe_indexing(a, ind_test)]
>> *)
Definition train_test_split {A} (arrays : list A) (test_size : Float64.t)
    (random_state : Z) : result (list A * list A) :=
  let n_samples := length arrays in
  '(n_train, n_test) ← validate_shuffle_split n_samples test_size;
  let permutation := permutation random_state n_samples in
  let ind_test := take n_test permutation in
  let ind_train := take n_train (drop n_test permutation) in
  train ← safe_indexing arrays ind_train;
  test ← safe_indexing arrays ind_test;
  Ok (train, test).

End with_generator.

End Sklearn.

(** ** Records handed to the loaders *)

(** One entry of [data_list]: the dict
    [{"image": [t1, t1ce, t2, flair], "label": seg}]. *)
Record PatientRecord := {
  image : list string;
  label : string;
}.

#[export] Instance PatientRecord_eq_dec : EqDecision PatientRecord.
Proof. solve_decision. Defined.

(** Modelled from the spec: [src/transforms.py] ([get_train_transforms],
    [get_val_transforms]) is not part of the sources at hand.  The spec
    describes it as an external transform pipeline that turns file paths
    into tensors; a pipeline is named by the call that returns it, and what
    it does to a record is [Monai.apply_cached] below. *)
Inductive Transform :=
  | TrainTransforms (roi_size : Z * Z * Z)
  | ValTransforms.

Definition get_train_transforms (roi_size : Z * Z * Z) : Transform :=
  TrainTransforms roi_size.
Definition get_val_transforms : Transform := ValTransforms.

Module Monai.

(** Modelled from the spec: the pipelines returned by [get_train_transforms]
    and [get_val_transforms] live in [src/transforms.py], which is not part
    of the sources at hand; the spec describes them as an external pipeline
    that converts file paths into tensors.  [apply_cached t item] stands for
    running the part of pipeline [t] that the cache stores on one record: it
    reads the files of the record, and returns or raises. *)
Record Pipeline := {
  apply_cached : Transform → PatientRecord → result unit;
}.

(** A constructed [CacheDataset]: the arguments it was built from;
    [len(ds)] is [len(data)]. *)
Record CacheDataset := {
  data : list PatientRecord;
  transform : Transform;
  cache_rate : Float64.t;
  num_workers : Z;
}.

(** [sys.maxsize], the default of [cache_num] *)
Definition sys_maxsize : Z := (2 ^ 63 - 1)%Z.

(** [min(int(cache_num), int(data_len * cache_rate), data_len)] *)
Definition compute_cache_num (data_len : nat) (cache_rate : Float64.t) : Z :=
  Z.min (Z.min sys_maxsize
           (Float64.to_int
              (Float64.mul (Float64.of_int (Z.of_nat data_len)) cache_rate)))
        (Z.of_nat data_len).

(** [CacheDataset._fill_cache]: the pipeline is applied to the items to be
    cached, and the first failure, in the order of the items, is raised. *)
Fixpoint fill_cache (T : Pipeline) (t : Transform) (items : list PatientRecord)
  : result unit :=
  match items with
  | [] => Ok ()
  | item :: rest => _ ← apply_cached T t item; fill_cache T t rest
  end.

(** [CacheDataset(data=..., transform=..., cache_rate=..., num_workers=...)]:
<<
    self.cache_num = min(int(cache_num), int(len(data) * cache_rate), len(data))
    if self.cache_num <= 0: nothing is cached
    else: the items data[0 : cache_num] are run through the pipeline
>> *)
Definition CacheDataset_init (T : Pipeline) (data : list PatientRecord)
    (transform : Transform) (cache_rate : Float64.t) (num_workers : Z)
  : result CacheDataset :=
  let cache_num := compute_cache_num (length data) cache_rate in
  _ ← (if (cache_num <=? 0)%Z then Ok ()
       else fill_cache T transform (take (Z.to_nat cache_num) data));
  Ok {| data := data; transform := transform; cache_rate := cache_rate;
        num_workers := num_workers |}.

End Monai.

Module Torch.

(** A constructed [DataLoader]: the arguments it was built from
    ([pin_memory] defaults to [False]). *)
Record DataLoader := {
  dataset : Monai.CacheDataset;
  batch_size : Z;
  shuffle : bool;
  num_workers : Z;
  pin_memory : bool;
}.

(** The argument checks of [torch.utils.data.DataLoader.__init__] that these
    calls can reach:
    - [num_workers < 0] raises [ValueError];
    - with [shuffle=True] the sampler is [RandomSampler(dataset)], whose
      constructor raises [ValueError] unless [len(dataset) > 0];
    - [BatchSampler] raises [ValueError] unless [batch_size > 0]. *)
Definition DataLoader_init (dataset : Monai.CacheDataset) (batch_size : Z)
    (shuffle : bool) (num_workers : Z) (pin_memory : bool) : result DataLoader :=
  if (num_workers <? 0)%Z then Raise ValueError
  else if shuffle && (length (Monai.data dataset) =? 0) then Raise ValueError
  else if (batch_size <=? 0)%Z then Raise ValueError
  else Ok {| dataset := dataset; batch_size := batch_size; shuffle := shuffle;
             num_workers := num_workers; pin_memory := pin_memory |}.

End Torch.

(** ** [BraTSDataModule] *)

(** The attributes of the object. *)
Record BraTSDataModule := {
  data_dir : string;
  batch_size : Z;
  num_workers : Z;
  cache_rate : Float64.t;
  train_files : list PatientRecord;
  val_files : list PatientRecord;
}.

(** [__init__(self, data_dir, batch_size=1, num_workers=4, cache_rate=1.0)] *)
Definition init (data_dir : string) (batch_size num_workers : Z)
    (cache_rate : Float64.t) : BraTSDataModule := {|
  data_dir := data_dir;
  batch_size := batch_size;
  num_workers := num_workers;
  cache_rate := cache_rate;
  train_files := [];
  val_files := [];
|}.

Definition default_batch_size : Z := 1.
Definition default_num_workers : Z := 4.
Definition default_cache_rate : Float64.t := Float64.mk 1 0.

(** A method runs on the object and the standard output, and returns or
    raises. *)
Record State := {
  self : BraTSDataModule;
  stdout : list string;
}.

Definition M (A : Type) : Type := State → result A * State.

#[export] Instance M_ret : MRet M := λ A a st, (Ok a, st).
#[export] Instance M_bind : MBind M := λ A B f m st,
  match m st with
  | (Ok a, st') => f a st'
  | (Raise e, st') => (Raise e, st')
  end.

Definition raise {A} (e : exn) : M A := λ st, (Raise e, st).

Definition lift {A} (r : result A) : M A := λ st, (r, st).

Definition get_self : M BraTSDataModule := λ st, (Ok (self st), st).

Definition print (line : string) : M unit := λ st,
  (Ok (), {| self := self st; stdout := stdout st ++ [line] |}).

Definition set_train_files (l : list PatientRecord) : M unit := λ st,
  let m := self st in
  (Ok (), {| self := {| data_dir := data_dir m; batch_size := batch_size m;
                        num_workers := num_workers m; cache_rate := cache_rate m;
                        train_files := l; val_files := val_files m |};
             stdout := stdout st |}).

Definition set_val_files (l : list PatientRecord) : M unit := λ st,
  let m := self st in
  (Ok (), {| self := {| data_dir := data_dir m; batch_size := batch_size m;
                        num_workers := num_workers m; cache_rate := cache_rate m;
                        train_files := train_files m; val_files := l |};
             stdout := stdout st |}).

(** [sorted(...)] on a list of [str]: ascending in the lexicographic order of
    the code units. *)
Definition sorted (l : list string) : list string := merge_sort String.le l.

(** The five file names of a patient directory (lines 51-59). *)
Definition pat_file (pat_path suffix : string) : string :=
  PosixPath.join pat_path (PosixPath.basename pat_path +:+ suffix).

Definition record_of (pat_path : string) : PatientRecord := {|
  image := [pat_file pat_path "-t1n.nii.gz"; pat_file pat_path "-t1c.nii.gz";
            pat_file pat_path "-t2w.nii.gz"; pat_file pat_path "-t2f.nii.gz"];
  label := pat_file pat_path "-seg.nii.gz";
|}.

(** The three f-strings of [setup] (lines 46, 68 and 74). *)
Definition msg_not_found (data_dir : string) : string :=
  "Không tìm thấy dữ liệu nào trong " +:+ data_dir.

Definition msg_found (n : nat) : string :=
  "--> Tìm thấy " +:+ pretty n +:+ " bệnh nhân hợp lệ.".

Definition msg_split (n_train n_val : nat) : string :=
  "--> Train set: " +:+ pretty n_train +:+ " | Val set: " +:+ pretty n_val.

Section setup.
Context (G : BitGenerator) (fs : FileSystem).

(** Lines 39-43: the sorted listing, then the directories among it. *)
Definition patient_dirs (data_dir : string) : list string :=
  let search_path := PosixPath.join data_dir "*" in
  let patient_dirs := sorted (glob_glob fs search_path) in
  filter (λ d, os_path_isdir fs d = true) patient_dirs.

(** One iteration of the loop of lines 49-66. *)
Definition scan_patient (data_list : list PatientRecord) (pat_path : string)
  : list PatientRecord :=
  let pat_id := PosixPath.basename pat_path in
  let t1 := PosixPath.join pat_path (pat_id +:+ "-t1n.nii.gz") in
  let t1ce := PosixPath.join pat_path (pat_id +:+ "-t1c.nii.gz") in
  let t2 := PosixPath.join pat_path (pat_id +:+ "-t2w.nii.gz") in
  let flair := PosixPath.join pat_path (pat_id +:+ "-t2f.nii.gz") in
  let seg := PosixPath.join pat_path (pat_id +:+ "-seg.nii.gz") in
  if os_path_exists fs t1 && os_path_exists fs seg
  then data_list ++ [ {| image := [t1; t1ce; t2; flair]; label := seg |} ]
  else data_list.

(** [data_list] after the loop. *)
Definition scan (patient_dirs : list string) : list PatientRecord :=
  foldl scan_patient [] patient_dirs.

(** [setup(self, stage=None)]; the body does not use [stage]. *)
Definition setup : M unit :=
  m ← get_self;
  let patient_dirs := patient_dirs (data_dir m) in
  if length patient_dirs =? 0
  then raise (FileNotFoundError (msg_not_found (data_dir m)))
  else
    let data_list := scan patient_dirs in
    _ ← print (msg_found (length data_list));
    '(train_list, val_list) ←
      lift (Sklearn.train_test_split G data_list Float64.lit_0_2 42);
    _ ← set_train_files train_list;
    _ ← set_val_files val_list;
    m' ← get_self;
    print (msg_split (length (train_files m')) (length (val_files m'))).

End setup.

Section loaders.
Context (T : Monai.Pipeline).

(** [train_dataloader(self)] *)
Definition train_dataloader (m : BraTSDataModule) : result Torch.DataLoader :=
  let train_transforms := get_train_transforms (64, 64, 64)%Z in
  train_ds ← Monai.CacheDataset_init T (train_files m) train_transforms
                (cache_rate m) (num_workers m);
  Torch.DataLoader_init train_ds (batch_size m) true (num_workers m) true.

(** [val_dataloader(self)] *)
Definition val_dataloader (m : BraTSDataModule) : result Torch.DataLoader :=
  let val_transforms := get_val_transforms in
  val_ds ← Monai.CacheDataset_init T (val_files m) val_transforms
              (cache_rate m) (num_workers m);
  Torch.DataLoader_init val_ds 1 false (num_workers m) false.

End loaders.

(** ** Vocabulary of the statements *)

(** The directory part in front of a joined name. *)
Definition dir_prefix (p : string) : string :=
  if String.eqb p "" || PosixPath.endswith_sep p then p else p +:+ "/".

(** The test of line 62. *)
Definition valid (fs : FileSystem) (pat_path : string) : Prop :=
  os_path_exists fs (pat_file pat_path "-t1n.nii.gz") = true
  ∧ os_path_exists fs (pat_file pat_path "-seg.nii.gz") = true.

#[export] Instance valid_dec fs pat_path : Decision (valid fs pat_path).
Proof. unfold valid. apply _. Defined.

(** The object after the two assignments of lines 72-73. *)
Definition with_files (m : BraTSDataModule) (train val : list PatientRecord)
  : BraTSDataModule := {|
  data_dir := data_dir m; batch_size := batch_size m;
  num_workers := num_workers m; cache_rate := cache_rate m;
  train_files := train; val_files := val;
|}.

Definition printed (st : State) (lines : list string) : State :=
  {| self := self st; stdout := stdout st ++ lines |}.

(** ** Changing what exists on disk *)

(** The same file system, with [ex] as the answer of [os.path.exists]. *)
Definition with_exists (fs : FileSystem) (ex : string → bool) : FileSystem := {|
  glob_glob := glob_glob fs;
  os_path_isdir := os_path_isdir fs;
  os_path_exists := ex;
|}.

(** The same file system, with the regular file [path] present inside a
    patient folder: the listing of the root and the directory tests do not
    change. *)
Definition with_file (fs : FileSystem) (path : string) : FileSystem :=
  with_exists fs (λ q, if String.eqb q path then true else os_path_exists fs q).

(** ** The records and sizes the spec words promise *)

(** The record of the patient identifier [P] under [root] in the words of
    the spec: four modality paths [<root>/P/P-<modality>.nii.gz] in the order
    T1, T1-contrast-enhanced, T2, FLAIR, and the label path
    [<root>/P/P-seg.nii.gz]. *)
Definition record_at (root P : string) : PatientRecord := {|
  image := [root +:+ "/" +:+ P +:+ "/" +:+ P +:+ "-t1n.nii.gz";
            root +:+ "/" +:+ P +:+ "/" +:+ P +:+ "-t1c.nii.gz";
            root +:+ "/" +:+ P +:+ "/" +:+ P +:+ "-t2w.nii.gz";
            root +:+ "/" +:+ P +:+ "/" +:+ P +:+ "-t2f.nii.gz"];
  label := root +:+ "/" +:+ P +:+ "/" +:+ P +:+ "-seg.nii.gz";
|}.


(** [round(0.8 * N)] in the words of the spec: the integer nearest to
    [4 * N / 5] (a tie cannot occur). *)
Definition round_0_8 (N : nat) : nat := (8 * N + 5) / 10.

(** ** Concrete worlds for running the model *)

Module Examples.

(** A linear congruential generator standing in for the Mersenne Twister:
    [rk_interval max] reduces the next state modulo [max + 1]. *)
Definition lcg_next (s : Z) : Z :=
  ((s * 6364136223846793005 + 1442695040888963407) mod 2 ^ 64)%Z.

Definition lcg_interval (max : nat) (s : Z) : nat * Z :=
  let s' := lcg_next s in
  (Z.to_nat ((s' / 2 ^ 33) mod (Z.of_nat max + 1)), s').

Definition lcg : BitGenerator := {|
  rk_state := Z;
  rk_seed := λ seed, seed;
  rk_interval := lcg_interval;
  rk_interval_le := ltac:(
    intros max s; unfold lcg_interval; cbn [fst];
    pose proof (Z.mod_pos_bound (lcg_next s / 2 ^ 33) (Z.of_nat max + 1));
    lia);
|}.

(** A pipeline that opens the four image files and the label file of a
    record, and fails when one of them is missing. *)
Definition reading (os : Glob.OS) : Monai.Pipeline := {|
  Monai.apply_cached := λ _ item,
    if forallb (Glob.exists_ os) (image item ++ [label item]) then Ok ()
    else Raise (RuntimeError "applying transform");
|}.

(** A kernel given by its directories (each with the names it lists) and
    its regular files. *)
Definition kernel (dirs : list (string * list string)) (files : list string)
  : Glob.OS := {|
  Glob.scandir := λ d, (snd ∘ snd) <$> list_find (λ e, e.1 = d) dirs;
  Glob.isdir := λ p, bool_decide (p ∈ dirs.*1);
  Glob.exists_ := λ p, bool_decide (p ∈ dirs.*1 ∨ p ∈ files);
|}.

(** The scenario of the spec: two patient folders, the second one without
    its label file. *)
Definition os_one_valid : Glob.OS :=
  kernel [("data", ["BraTS-GLI-00002"; "BraTS-GLI-00001"]);
          ("data/BraTS-GLI-00001", []); ("data/BraTS-GLI-00002", [])]
         ["data/BraTS-GLI-00001/BraTS-GLI-00001-t1n.nii.gz";
          "data/BraTS-GLI-00001/BraTS-GLI-00001-t1c.nii.gz";
          "data/BraTS-GLI-00001/BraTS-GLI-00001-t2w.nii.gz";
          "data/BraTS-GLI-00001/BraTS-GLI-00001-t2f.nii.gz";
          "data/BraTS-GLI-00001/BraTS-GLI-00001-seg.nii.gz";
          "data/BraTS-GLI-00002/BraTS-GLI-00002-t1n.nii.gz";
          "data/BraTS-GLI-00002/BraTS-GLI-00002-t1c.nii.gz";
          "data/BraTS-GLI-00002/BraTS-GLI-00002-t2w.nii.gz";
          "data/BraTS-GLI-00002/BraTS-GLI-00002-t2f.nii.gz"].

(** Patient folders [ids] under [data], each holding exactly its first
    modality file and its label file. *)
Definition os_patients (ids : list string) : Glob.OS :=
  kernel (("data", ids) :: ((λ P, ("data/" +:+ P, [])) <$> ids))
         (ids ≫= λ P, ["data/" +:+ P +:+ "/" +:+ P +:+ "-t1n.nii.gz";
                       "data/" +:+ P +:+ "/" +:+ P +:+ "-seg.nii.gz"]).

(** Six complete patient folders and a stray file next to them. *)
Definition os_six_patients : Glob.OS :=
  kernel (("data", ["c"; "a"; "README.txt"; "b"; "e"; "d"; "f"])
          :: ((λ P, ("data/" +:+ P, [])) <$> ["c"; "a"; "b"; "e"; "d"; "f"]))
         ("data/README.txt"
          :: (["c"; "a"; "b"; "e"; "d"; "f"] ≫= λ P,
                (λ suffix, "data/" +:+ P +:+ "/" +:+ P +:+ suffix)
                <$> ["-t1n.nii.gz"; "-t1c.nii.gz"; "-t2w.nii.gz";
                     "-t2f.nii.gz"; "-seg.nii.gz"])).

(** One patient folder, holding no file at all. *)
Definition os_no_files : Glob.OS :=
  kernel [("data", ["BraTS-GLI-00001"]); ("data/BraTS-GLI-00001", [])] [].

(** An empty root directory. *)
Definition os_empty : Glob.OS := kernel [("data", [])] [].

(** A root with a hidden directory, a patient folder and a stray file. *)
Definition os_hidden : Glob.OS :=
  kernel [("data", [".cache"; "BraTS-GLI-00001"; "notes.txt"]);
          ("data/.cache", []); ("data/BraTS-GLI-00001", [])]
         ["data/notes.txt"].

(** Three patient folders; the third one lacks its first modality file. *)
Definition os_missing_t1 : Glob.OS :=
  kernel [("data", ["a"; "b"; "c"]); ("data/a", []); ("data/b", []); ("data/c", [])]
         ["data/a/a-t1n.nii.gz"; "data/a/a-seg.nii.gz";
          "data/b/b-t1n.nii.gz"; "data/b/b-seg.nii.gz";
          "data/c/c-t1c.nii.gz"; "data/c/c-seg.nii.gz"].

(** The same disk, enumerated by the kernel in the opposite order. *)
Definition reversed_listing (fs : FileSystem) : FileSystem := {|
  glob_glob := λ pathname, reverse (glob_glob fs pathname);
  os_path_isdir := os_path_isdir fs;
  os_path_exists := os_path_exists fs;
|}.

Definition fresh : State :=
  {| self := init "data" default_batch_size default_num_workers default_cache_rate;
     stdout := [] |}.

End Examples.

(** ** Byte strings *)

Module Str.

Lemma app_nil_l (s : string) : "" +:+ s = s.
Proof. reflexivity. Qed.

Lemma app_cons (c : ascii) (s t : string) :
  String c s +:+ t = String c (s +:+ t).
Proof. reflexivity. Qed.

Lemma app_nil_r (s : string) : s +:+ "" = s.
Proof. induction s as [|c s IH]; [done|]. by rewrite app_cons, IH. Qed.

Lemma app_assoc (s t u : string) : (s +:+ t) +:+ u = s +:+ (t +:+ u).
Proof. induction s as [|c s IH]; [done|]. by rewrite !app_cons, IH. Qed.

Lemma length_app (s t : string) :
  String.length (s +:+ t) = String.length s + String.length t.
Proof. induction s as [|c s IH]; [done|]. rewrite app_cons. simpl. by rewrite IH. Qed.

Lemma app_eq_nil (s t : string) : s +:+ t = "" → s = "" ∧ t = "".
Proof. destruct s; [done|]. by rewrite app_cons. Qed.

(** Cancellation of a common suffix. *)
Lemma app_inv_tail (s t u : string) : s +:+ u = t +:+ u → s = t.
Proof.
  revert t. induction s as [|c s IH]; intros [|d t] H.
  - done.
  - apply (f_equal String.length) in H.
    rewrite app_nil_l, app_cons in H. simpl in H. rewrite length_app in H. lia.
  - apply (f_equal String.length) in H.
    rewrite app_nil_l, app_cons in H. simpl in H. rewrite length_app in H. lia.
  - rewrite !app_cons in H. injection H as -> H. f_equal. by apply IH.
Qed.

End Str.

(** ** Facts about the path functions *)

Module PosixPathFacts.
Import PosixPath.

Example posixpath_examples :
  basename "data/BraTS-GLI-00001" = "BraTS-GLI-00001"
  ∧ basename "data/" = ""
  ∧ basename "BraTS-GLI-00001" = "BraTS-GLI-00001"
  ∧ split "data/sub//*" = ("data/sub", "*")
  ∧ split "/*" = ("/", "*")
  ∧ split "*" = ("", "*")
  ∧ join "data" "*" = "data/*"
  ∧ join "data/" "*" = "data/*"
  ∧ join "" "*" = "*"
  ∧ join "data" "/abs" = "/abs".
Proof. repeat split. Qed.

Lemma contains_sep_app (s t : string) :
  contains_sep (s +:+ t) = contains_sep s || contains_sep t.
Proof.
  induction s as [|c s IH]; [done|].
  rewrite Str.app_cons. simpl. rewrite IH. by rewrite orb_assoc.
Qed.

Lemma endswith_sep_contains (s : string) :
  endswith_sep s = true → contains_sep s = true.
Proof.
  induction s as [|c s IH]; [done|]. simpl.
  destruct s as [|d s]; [by intros ->|].
  intros H. rewrite (IH H). by rewrite orb_true_r.
Qed.

Lemma endswith_sep_app (s t : string) :
  t ≠ "" → endswith_sep (s +:+ t) = endswith_sep t.
Proof.
  intros Ht. induction s as [|c s IH]; [done|].
  rewrite Str.app_cons. simpl.
  destruct (s +:+ t) eqn:E; [|done].
  apply Str.app_eq_nil in E as [_ ?]. done.
Qed.

Lemma startswith_sep_contains (s : string) :
  contains_sep s = false → startswith_sep s = false.
Proof. destruct s as [|c s]; [done|]. simpl. by intros [? _]%orb_false_iff. Qed.

Lemma basename_id (p : string) : contains_sep p = false → basename p = p.
Proof.
  destruct p as [|c p]; [done|]. simpl.
  intros [-> ->]%orb_false_iff. done.
Qed.

Lemma contains_sep_basename (p : string) : contains_sep (basename p) = false.
Proof.
  induction p as [|c p IH]; [done|]. simpl.
  destruct (contains_sep p) eqn:Hp; [done|].
  destruct (is_sep c) eqn:Hc; [done|]. simpl. by rewrite Hc, Hp.
Qed.

(** The base name of [x +:+ y] is [y] when [y] has no separator and [x] is
    empty or ends with one. *)
Lemma basename_app (x y : string) :
  x = "" ∨ endswith_sep x = true → contains_sep y = false →
  basename (x +:+ y) = y.
Proof.
  intros Hx Hy. induction x as [|c x IH]; [by apply basename_id|].
  destruct Hx as [|Hx]; [done|].
  rewrite Str.app_cons. simpl. rewrite contains_sep_app, Hy, orb_false_r.
  destruct x as [|d x].
  - simpl in *. by rewrite Hx.
  - rewrite (endswith_sep_contains (String d x)) by done.
    apply IH. by right.
Qed.

Lemma basename_nil (p : string) :
  basename p = "" → p = "" ∨ endswith_sep p = true.
Proof.
  induction p as [|c p IH]; [by left|]. simpl. intros H. right.
  destruct (contains_sep p) eqn:Hp.
  - destruct (IH H) as [->|?]; [done|]. by destruct p.
  - destruct (is_sep c) eqn:Hc; [by subst|done].
Qed.

(** [p[:i] + p[i:] == p] *)
Lemma head_basename (p : string) : head_upto_sep p +:+ basename p = p.
Proof.
  induction p as [|c p IH]; [done|]. simpl.
  destruct (contains_sep p); [by rewrite Str.app_cons, IH|].
  by destruct (is_sep c).
Qed.

Lemma dir_prefix_ends (p : string) :
  dir_prefix p = "" ∨ endswith_sep (dir_prefix p) = true.
Proof.
  unfold dir_prefix. destruct (String.eqb_spec p "") as [->|Hp]; [by left|].
  simpl. destruct (endswith_sep p) eqn:E; [by right|].
  right. by rewrite endswith_sep_app.
Qed.

Lemma join_dir_prefix (a b : string) :
  startswith_sep b = false → join a b = dir_prefix a +:+ b.
Proof.
  intros Hb. unfold join, dir_prefix. rewrite Hb.
  destruct (String.eqb a "" || endswith_sep a); [done|].
  by rewrite Str.app_assoc.
Qed.

Lemma basename_of_dir (p : string) :
  p = "" ∨ endswith_sep p = true → basename p = "".
Proof.
  intros H. rewrite <- (Str.app_nil_r p) at 1. by apply basename_app.
Qed.

Lemma dir_prefix_inj (p q : string) :
  basename p = basename q → dir_prefix p = dir_prefix q → p = q.
Proof.
  unfold dir_prefix. intros Hb.
  destruct (String.eqb p "" || endswith_sep p) eqn:Ep,
           (String.eqb q "" || endswith_sep q) eqn:Eq; try done.
  - intros ->. exfalso.
    apply orb_false_iff in Eq as [Hq1%String.eqb_neq Hq2].
    rewrite basename_of_dir in Hb.
    + symmetry in Hb. apply basename_nil in Hb as [?|?]; congruence.
    + apply orb_true_iff in Ep as [Hp%String.eqb_eq|?]; [|by right].
      by apply Str.app_eq_nil in Hp as [_ ?].
  - intros <-. exfalso.
    apply orb_false_iff in Ep as [Hp1%String.eqb_neq Hp2].
    rewrite (basename_of_dir (p +:+ "/")) in Hb.
    + apply basename_nil in Hb as [?|?]; congruence.
    + apply orb_true_iff in Eq as [Hq%String.eqb_eq|?]; [|by right].
      by apply Str.app_eq_nil in Hq as [_ ?].
  - apply Str.app_inv_tail.
Qed.

End PosixPathFacts.

(** ** Facts about the scan *)

Module ScanFacts.
Import PosixPath PosixPathFacts.

Lemma app_inj_length (a b s t : string) :
  String.length s = String.length t → a +:+ s = b +:+ t → a = b ∧ s = t.
Proof.
  intros Hl. revert b. induction a as [|c a IH]; intros [|d b] H.
  - done.
  - apply (f_equal String.length) in H.
    rewrite Str.app_nil_l, Str.app_cons in H. simpl in H.
    rewrite Str.length_app in H. lia.
  - apply (f_equal String.length) in H.
    rewrite Str.app_nil_l, Str.app_cons in H. simpl in H.
    rewrite Str.length_app in H. lia.
  - rewrite !Str.app_cons in H. injection H as -> H.
    destruct (IH _ H) as [-> ->]. done.
Qed.

(** The shape of a patient file name: directory prefix, base name, suffix. *)
Lemma pat_file_shape (p s : string) :
  contains_sep s = false →
  pat_file p s = dir_prefix p +:+ (basename p +:+ s).
Proof.
  intros Hs. unfold pat_file. apply join_dir_prefix.
  apply startswith_sep_contains.
  by rewrite contains_sep_app, contains_sep_basename, Hs.
Qed.

Lemma basename_pat_file (p s : string) :
  contains_sep s = false → basename (pat_file p s) = basename p +:+ s.
Proof.
  intros Hs. rewrite pat_file_shape by done.
  apply basename_app; [apply dir_prefix_ends|].
  by rewrite contains_sep_app, contains_sep_basename, Hs.
Qed.

(** Two patient directories never share a file name, also across suffixes of
    the same length. *)
Lemma pat_file_inj (p q s t : string) :
  contains_sep s = false → contains_sep t = false →
  String.length s = String.length t →
  pat_file p s = pat_file q t → p = q ∧ s = t.
Proof.
  intros Hs Ht Hl H.
  assert (basename p +:+ s = basename q +:+ t) as Hb.
  { by rewrite <- !basename_pat_file, H. }
  apply app_inj_length in Hb as [Hb ->]; [|done]. split; [|done].
  rewrite !pat_file_shape, Hb in H by done.
  apply Str.app_inv_tail in H. by apply dir_prefix_inj.
Qed.

Lemma record_of_inj (p q : string) : record_of p = record_of q → p = q.
Proof.
  intros H. apply (f_equal label) in H. simpl in H.
  by apply pat_file_inj in H as [? _].
Qed.

#[export] Instance record_of_Inj : Inj (=) (=) record_of.
Proof. intros p q. apply record_of_inj. Qed.

Section with_fs.
Context (fs : FileSystem).

Lemma scan_patient_spec (acc : list PatientRecord) (p : string) :
  scan_patient fs acc p = acc ++ (if decide (valid fs p) then [record_of p] else []).
Proof.
  unfold scan_patient. fold (pat_file p "-t1n.nii.gz").
  fold (pat_file p "-seg.nii.gz"). fold (pat_file p "-t1c.nii.gz").
  fold (pat_file p "-t2w.nii.gz"). fold (pat_file p "-t2f.nii.gz").
  fold (record_of p).
  case_decide as Hv; [by destruct Hv as [-> ->]|].
  rewrite app_nil_r. unfold valid in Hv.
  destruct (os_path_exists fs (pat_file p "-t1n.nii.gz")) eqn:E1,
           (os_path_exists fs (pat_file p "-seg.nii.gz")) eqn:E2; try done.
  destruct Hv. by split.
Qed.

Lemma foldl_scan_patient (acc : list PatientRecord) (dirs : list string) :
  foldl (scan_patient fs) acc dirs = acc ++ (record_of <$> filter (valid fs) dirs).
Proof.
  revert acc. induction dirs as [|p dirs IH]; intros acc; simpl.
  { by rewrite app_nil_r. }
  rewrite IH, scan_patient_spec, filter_cons.
  case_decide; simpl; [by rewrite <- app_assoc|by rewrite app_nil_r].
Qed.

(** The loop builds the records of the valid directories, in order. *)
Lemma scan_spec (dirs : list string) :
  scan fs dirs = record_of <$> filter (valid fs) dirs.
Proof. unfold scan. by rewrite foldl_scan_patient. Qed.

Lemma length_scan (dirs : list string) :
  length (scan fs dirs) = length (filter (valid fs) dirs).
Proof. by rewrite scan_spec, length_fmap. Qed.

Lemma elem_of_scan (dirs : list string) (r : PatientRecord) :
  r ∈ scan fs dirs ↔ ∃ p, r = record_of p ∧ p ∈ dirs ∧ valid fs p.
Proof.
  rewrite scan_spec, list_elem_of_fmap. setoid_rewrite list_elem_of_filter.
  split; intros (p & ? & ? & ?); eauto.
Qed.

Lemma record_of_elem_of_scan (dirs : list string) (p : string) :
  record_of p ∈ scan fs dirs ↔ p ∈ dirs ∧ valid fs p.
Proof.
  rewrite elem_of_scan. split; [|intros []; eauto].
  intros (q & ->%record_of_inj & ? & ?). done.
Qed.

Lemma NoDup_scan (dirs : list string) : NoDup dirs → NoDup (scan fs dirs).
Proof.
  intros H. rewrite scan_spec. apply (NoDup_fmap_2 _). by apply NoDup_filter.
Qed.

Lemma sorted_Permutation (l : list string) : sorted l ≡ₚ l.
Proof. apply merge_sort_Permutation. Qed.

Lemma sorted_StronglySorted (l : list string) : StronglySorted String.le (sorted l).
Proof. apply (StronglySorted_merge_sort _). Qed.

(** Sorting forgets the order in which the entries were listed. *)
Lemma sorted_canonical (l1 l2 : list string) : l1 ≡ₚ l2 → sorted l1 = sorted l2.
Proof.
  intros H. apply (StronglySorted_unique String.le);
    [apply sorted_StronglySorted..|].
  by rewrite !sorted_Permutation.
Qed.

Lemma StronglySorted_filter {A} (R : relation A) (P : A → Prop)
    `{∀ x, Decision (P x)} (l : list A) :
  StronglySorted R l → StronglySorted R (filter P l).
Proof.
  induction 1 as [|x l Hl IH Hx]; [constructor|].
  rewrite filter_cons. case_decide; [|done].
  constructor; [done|]. apply Forall_forall. intros y [_ Hy]%list_elem_of_filter.
  rewrite Forall_forall in Hx. auto.
Qed.

Lemma elem_of_patient_dirs (data_dir p : string) :
  p ∈ patient_dirs fs data_dir ↔
  p ∈ glob_glob fs (join data_dir "*") ∧ os_path_isdir fs p = true.
Proof.
  unfold patient_dirs. rewrite list_elem_of_filter, sorted_Permutation. tauto.
Qed.

Lemma patient_dirs_StronglySorted (data_dir : string) :
  StronglySorted String.le (patient_dirs fs data_dir).
Proof. apply StronglySorted_filter, sorted_StronglySorted. Qed.

Lemma NoDup_patient_dirs (data_dir : string) :
  NoDup (glob_glob fs (join data_dir "*")) → NoDup (patient_dirs fs data_dir).
Proof.
  intros H. apply NoDup_filter. by rewrite sorted_Permutation.
Qed.

End with_fs.

End ScanFacts.

(** ** Facts about the float computation of the test size *)

Module Float64Facts.
Import Float64.

Local Open Scope Z_scope.

(** The core of the rounding argument, on integers: [E = 2 ^ drop] is the
    weight of the dropped bits, [D = 2 ^ 54 / E], and [5 * M = 2 ^ 54 + 1]
    for the significand [M] of [0.2]. *)
Lemma round_fifth_bounds (n k E D half q r : Z) :
  1 ≤ k → 5 * k - 4 ≤ n ≤ 5 * k → n < 2 ^ 50 →
  1 ≤ half → E = 2 * half → E * D = 2 ^ 54 → E ≤ 2 ^ 49 →
  3602879701896397 * n = q * E + r → 0 ≤ r < E →
  3602879701896397 * n < E * 2 ^ 53 →
  let q' := if (half <? r) || ((half =? r) && Z.odd q) then q + 1 else q in
  (k - 1) * D < q' ≤ k * D.
Proof.
  intros Hk Hn Hn50 Hhalf HE HED HE49 Hp Hr Hp53 q'.
  assert (0 < D) as HD by nia.
  assert (q ≤ q' ≤ q + 1) as Hq'.
  { subst q'. destruct ((half <? r) || ((half =? r) && Z.odd q)); lia. }
  assert ((k - 1) * D < q) as Hlow.
  { assert (5 * ((k - 1) * D + 1) * E ≤ 5 * (q * E + r)) as H; [|nia].
    rewrite <- Hp.
    replace (5 * ((k - 1) * D + 1) * E) with (5 * (k - 1) * (E * D) + 5 * E) by ring.
    rewrite HED. lia. }
  split; [lia|].
  destruct (decide (n = 5 * k)) as [->|Hne].
  - assert (q * E + r = (k * D) * E + k) as Hdecomp.
    { rewrite <- Hp. replace (k * D * E) with (k * (E * D)) by ring.
      rewrite HED. lia. }
    assert (k < half) as Hkh.
    { assert (k * (E * D) < E * 2 ^ 53) as H1 by (rewrite HED; lia).
      assert (k * D < 2 ^ 53) as H2 by nia.
      assert (D * (2 * half) = 2 ^ 54) as H3 by (rewrite <- HE, <- HED; ring).
      nia. }
    assert (q = k * D ∧ r = k) as [-> ->].
    { assert (q = k * D) as -> by nia. lia. }
    subst q'.
    destruct (Z.ltb_spec half k); [lia|].
    destruct (Z.eqb_spec half k); [lia|]. simpl. lia.
  - assert (q < k * D); [|lia].
    assert (5 * (q * E + r) < 5 * (k * D) * E) as H; [|nia].
    rewrite <- Hp.
    replace (5 * (k * D) * E) with (5 * k * (E * D)) by ring.
    rewrite HED. lia.
Qed.

Lemma of_int_exact (n : Z) : 0 ≤ n < 2 ^ 53 → of_int n = mk n 0.
Proof.
  intros Hn. unfold of_int, round.
  assert (Z.log2 n ≤ 52) as H.
  { destruct (decide (n = 0)) as [->|]; [done|].
    assert (Z.log2 n < 53); [|lia]. apply Z.log2_lt_pow2; lia. }
  destruct (Z.leb_spec (Z.log2 n - 52) 0); [done|lia].
Qed.

(** [ceil(0.2 * n)] computed in binary64 is the exact ceiling of [n / 5]. *)
Lemma ceil_mul_0_2 (n : Z) :
  0 ≤ n < 2 ^ 50 → ceil (mul lit_0_2 (of_int n)) = (n + 4) / 5.
Proof.
  intros Hn. rewrite of_int_exact by lia.
  unfold mul, lit_0_2. cbn [mant expo].
  set (p := 3602879701896397 * n). unfold round.
  destruct (Z.leb_spec (Z.log2 p - 52) 0) as [Hd|Hd].
  - assert (n = 0 ∨ n = 1 ∨ n = 2) as [->|[->| ->]]; [|done..].
    destruct (decide (n = 0)); [by left|].
    assert (p < 2 ^ 53); [|lia].
    apply Z.log2_lt_pow2; lia.
  - set (e := Z.log2 p - 52) in *.
    assert (0 < p) as Hp.
    { destruct (Z.le_gt_cases p 0) as [H0|]; [|done].
      apply Z.log2_nonpos in H0. lia. }
    pose proof (Z.log2_spec p Hp) as [Hlo Hhi].
    replace (Z.log2 p) with (52 + e) in Hlo by lia.
    replace (Z.succ (Z.log2 p)) with (53 + e) in Hhi by lia.
    rewrite Z.pow_add_r in Hlo, Hhi by lia.
    assert (e ≤ 49) as He.
    { destruct (Z.le_gt_cases e 49); [done|].
      assert (2 ^ 50 ≤ 2 ^ e) by (apply Z.pow_le_mono_r; lia). lia. }
    set (E := 2 ^ e) in *. set (q := p / E). set (r := p mod E).
    set (half := 2 ^ (e - 1)).
    set (q' := if (half <? r) || ((half =? r) && Z.odd q) then q + 1 else q).
    unfold ceil. cbn [mant expo].
    destruct (Z.leb_spec 0 (-54 + 0 + e)); [lia|].
    replace (- (-54 + 0 + e)) with (54 - e) by lia.
    set (D := 2 ^ (54 - e)).
    assert (0 < E) as HE0 by (apply Z.pow_pos_nonneg; lia).
    assert (E * D = 2 ^ 54) as HED.
    { unfold E, D. rewrite <- Z.pow_add_r by lia. f_equal. lia. }
    assert (E = 2 * half) as HE2.
    { unfold E, half. rewrite <- (Z.pow_1_r 2) at 2.
      rewrite <- Z.pow_add_r by lia. f_equal. lia. }
    assert (1 ≤ half) as Hh.
    { assert (0 < half); [|lia]. apply Z.pow_pos_nonneg; lia. }
    assert (E ≤ 2 ^ 49) as HE49 by (apply Z.pow_le_mono_r; lia).
    set (k := (n + 4) / 5).
    assert (5 * k - 4 ≤ n ≤ 5 * k) as Hk.
    { pose proof (Z.div_mod (n + 4) 5 ltac:(lia)).
      pose proof (Z.mod_pos_bound (n + 4) 5 ltac:(lia)). fold k in H0. lia. }
    assert (1 ≤ k) as Hk1 by lia.
    pose proof (round_fifth_bounds n k E D half q r Hk1 Hk ltac:(lia) Hh HE2 HED
                  HE49) as Hb.
    assert (0 < D) as HD0 by (apply Z.pow_pos_nonneg; lia).
    assert (3602879701896397 * n = q * E + r) as Hqr.
    { fold p. unfold q, r. rewrite (Z.mul_comm (p / E)). apply Z.div_mod. lia. }
    specialize (Hb Hqr (Z.mod_pos_bound p E HE0) ltac:(fold p; lia)).
    fold q' in Hb. cbv zeta in Hb.
    replace ((k - 1) * D) with (k * D - D) in Hb by ring.
    assert (- q' / D = - k) as ->; [|lia].
    symmetry. apply Z.div_unique with (r := k * D - q'); [left; lia|ring].
Qed.

(** For 15 samples the exact product [15 * 0.2] lies just above 3 (the
    double [0.2] is a little more than one fifth); rounded to binary64 it
    is 3, so the test size is 3 and not 4. *)
Example ceil_mul_0_2_15 :
  (3 * 2 ^ 54 < mant lit_0_2 * 15)
  ∧ mul lit_0_2 (of_int 15) = mk 6755399441055744 (-51)
  ∧ ceil (mul lit_0_2 (of_int 15)) = 3.
Proof. repeat split. Qed.

End Float64Facts.

(** ** Facts about the split *)

Module SklearnFacts.
Import Sklearn.

Section with_generator.
Context (G : BitGenerator).

Lemma swap_Permutation (x : list nat) (i j : nat) :
  i < length x → j < length x → swap x i j ≡ₚ x.
Proof.
  intros Hi Hj. unfold swap.
  destruct (lookup_lt_is_Some_2 x i Hi) as [xi Hxi].
  destruct (lookup_lt_is_Some_2 x j Hj) as [xj Hxj].
  rewrite (list_lookup_total_correct _ _ _ Hxi).
  rewrite (list_lookup_total_correct _ _ _ Hxj).
  by apply Permutation_insert_swap.
Qed.

Lemma length_swap (x : list nat) (i j : nat) : length (swap x i j) = length x.
Proof. unfold swap. by rewrite !length_insert. Qed.

(** The shuffle loop only moves elements around: every drawn index is within
    the part of the array still to be shuffled. *)
Lemma shuffle_raw_Permutation (i : nat) (x : list nat) (s : rk_state G) :
  i < length x ∨ i = 0 → (shuffle_raw G i x s).1 ≡ₚ x.
Proof.
  revert x s. induction i as [|i IH]; intros x s Hi; [done|].
  destruct Hi as [Hi|]; [|done]. simpl.
  pose proof (rk_interval_le G (S i) s) as Hj.
  destruct (rk_interval G (S i) s) as [j s']. simpl in Hj.
  rewrite IH by (rewrite length_swap; lia).
  apply swap_Permutation; lia.
Qed.

Lemma permutation_Permutation (seed : Z) (n : nat) :
  permutation G seed n ≡ₚ seq 0 n.
Proof.
  unfold permutation. apply shuffle_raw_Permutation.
  rewrite length_seq. lia.
Qed.

Lemma length_permutation (seed : Z) (n : nat) :
  length (permutation G seed n) = n.
Proof. by rewrite permutation_Permutation, length_seq. Qed.

Lemma elem_of_permutation (seed : Z) (n i : nat) :
  i ∈ permutation G seed n → i < n.
Proof. rewrite permutation_Permutation, elem_of_seq. lia. Qed.

End with_generator.

(** The sizes of the split at [test_size = 0.2]. *)
Lemma validate_shuffle_split_small (n : nat) :
  n < 2 → validate_shuffle_split n Float64.lit_0_2 = Raise ValueError.
Proof.
  intros Hn. assert (n = 0 ∨ n = 1) as [-> | ->] by lia; reflexivity.
Qed.

Lemma validate_shuffle_split_0_2 (n : nat) :
  2 ≤ n → (Z.of_nat n < 2 ^ 50)%Z →
  validate_shuffle_split n Float64.lit_0_2 = Ok (n - (n + 4) / 5, (n + 4) / 5).
Proof.
  intros Hn Hb. unfold validate_shuffle_split.
  change (Float64.le_zero Float64.lit_0_2 || Float64.ge_one Float64.lit_0_2)
    with false. cbv iota.
  rewrite Float64Facts.ceil_mul_0_2 by lia.
  replace (Z.to_nat ((Z.of_nat n + 4) / 5)) with ((n + 4) / 5).
  2:{ rewrite <- (Nat2Z.id ((n + 4) / 5)). f_equal.
      rewrite Nat2Z.inj_div. f_equal. lia. }
  assert ((n + 4) / 5 < n) as Hlt.
  { apply Nat.Div0.div_lt_upper_bound. lia. }
  destruct (Nat.eqb_spec (n - (n + 4) / 5) 0); [lia|done].
Qed.

(** Whatever the sizes, a successful validation splits [n_samples]. *)
Lemma validate_shuffle_split_Ok (n n_train n_test : nat) (test_size : Float64.t) :
  validate_shuffle_split n test_size = Ok (n_train, n_test) →
  n_train + n_test = n ∧ 0 < n_train.
Proof.
  unfold validate_shuffle_split.
  destruct (Float64.le_zero test_size || Float64.ge_one test_size); [done|].
  destruct (Nat.eqb_spec
    (n - Z.to_nat (Float64.ceil (Float64.mul test_size
                                   (Float64.of_int (Z.of_nat n))))) 0); [done|].
  intros [= <- <-]. lia.
Qed.

Lemma validate_shuffle_split_Raise (n : nat) (test_size : Float64.t) (e : exn) :
  validate_shuffle_split n test_size = Raise e → e = ValueError.
Proof.
  unfold validate_shuffle_split.
  repeat match goal with |- context [if ?b then _ else _] => destruct b end;
    congruence.
Qed.

Section indexing.
Context {A : Type}.

Lemma safe_indexing_Ok (X : list A) (x0 : A) (indices : list nat) :
  Forall (λ i, i < length X) indices →
  safe_indexing X indices = Ok ((λ i, default x0 (X !! i)) <$> indices).
Proof.
  induction 1 as [|i indices Hi _ IH]; [done|]. simpl.
  destruct (lookup_lt_is_Some_2 X i Hi) as [x Hx]. rewrite Hx, IH. done.
Qed.

Lemma fmap_lookup_seq (X : list A) (x0 : A) :
  (λ i, default x0 (X !! i)) <$> seq 0 (length X) = X.
Proof.
  apply list_eq. intros i. rewrite list_lookup_fmap.
  destruct (decide (i < length X)) as [Hi|Hi].
  - rewrite lookup_seq_lt by done. simpl.
    destruct (lookup_lt_is_Some_2 X i Hi) as [x Hx]. by rewrite Hx.
  - rewrite lookup_seq_ge, lookup_ge_None_2 by lia. done.
Qed.

End indexing.

Section split.
Context (G : BitGenerator) {A : Type}.

(** A split that returns hands back every element exactly once. *)
Lemma train_test_split_Ok (arrays train test : list A) (test_size : Float64.t)
    (seed : Z) :
  train_test_split G arrays test_size seed = Ok (train, test) →
  train ++ test ≡ₚ arrays
  ∧ validate_shuffle_split (length arrays) test_size
    = Ok (length train, length test).
Proof.
  unfold train_test_split.
  destruct (validate_shuffle_split (length arrays) test_size)
    as [[n_train n_test]|e] eqn:Hv; [|done].
  apply validate_shuffle_split_Ok in Hv as [Hsum Hpos]. simpl.
  destruct arrays as [|x0 arrays']; [simpl in *; lia|].
  set (X := x0 :: arrays') in *.
  set (perm := permutation G seed (length X)).
  assert (length perm = length X) as Hlen by apply length_permutation.
  assert (Forall (λ i, i < length X) perm) as Hall.
  { apply Forall_forall. intros i. apply elem_of_permutation. }
  assert (perm ≡ₚ seq 0 (length X)) as Hperm by apply permutation_Permutation.
  clearbody perm X.
  rewrite (safe_indexing_Ok X x0), (safe_indexing_Ok X x0); simpl.
  2,3: by repeat first [apply Forall_take | apply Forall_drop].
  intros [= <- <-]. split.
  - rewrite (comm (++)), <- fmap_app.
    rewrite (take_ge (drop n_test perm)) by (rewrite length_drop; lia).
    rewrite take_drop, Hperm. by rewrite fmap_lookup_seq.
  - rewrite !length_fmap, !length_take, length_drop. do 2 f_equal; lia.
Qed.

(** The only failure of the split is the [ValueError] of the validation. *)
Lemma train_test_split_Raise (arrays : list A) (test_size : Float64.t)
    (seed : Z) (e : exn) :
  train_test_split G arrays test_size seed = Raise e →
  e = ValueError
  ∧ validate_shuffle_split (length arrays) test_size = Raise ValueError.
Proof.
  unfold train_test_split.
  destruct (validate_shuffle_split (length arrays) test_size)
    as [[n_train n_test]|e'] eqn:Hv.
  - apply validate_shuffle_split_Ok in Hv as [Hsum Hpos]. simpl.
    destruct arrays as [|x0 arrays']; [simpl in *; lia|].
    set (X := x0 :: arrays') in *.
    assert (Forall (λ i, i < length X) (permutation G seed (length X))) as Hall.
    { apply Forall_forall. intros i. apply elem_of_permutation. }
    clearbody X.
    rewrite (safe_indexing_Ok X x0), (safe_indexing_Ok X x0); simpl; [done|..];
      by repeat first [apply Forall_take | apply Forall_drop].
  - simpl. intros [= <-].
    pose proof (validate_shuffle_split_Raise _ _ _ Hv) as ->. done.
Qed.

(** The split always returns or raises [ValueError], and which one is
    decided by the size validation alone. *)
Lemma train_test_split_total (arrays : list A) (test_size : Float64.t)
    (seed : Z) :
  (∃ train test, train_test_split G arrays test_size seed = Ok (train, test))
  ∨ train_test_split G arrays test_size seed = Raise ValueError.
Proof.
  destruct (train_test_split G arrays test_size seed) as [[train test]|e] eqn:H.
  - left. eauto.
  - right. by apply train_test_split_Raise in H as [-> _].
Qed.

End split.

End SklearnFacts.

(** ** Facts about the listing of a plain root *)

Module GlobFacts.
Import PosixPath PosixPathFacts Glob.

Lemma all_sep_ends (s : string) :
  all_sep s = true → s = "" ∨ endswith_sep s = true.
Proof.
  induction s as [|c s IH]; [by left|]. simpl.
  intros [Hc Hs]%andb_true_iff. right.
  destruct (IH Hs) as [->|?]; [done|]. by destruct s.
Qed.

Lemma endswith_sep_cons (c : ascii) (s : string) :
  endswith_sep (String c s) = false → endswith_sep s = false.
Proof. destruct s; [done|]. done. Qed.

Lemma all_sep_app (s t : string) : all_sep (s +:+ t) = all_sep s && all_sep t.
Proof.
  induction s as [|c s IH]; [done|].
  rewrite Str.app_cons. simpl. by rewrite IH, andb_assoc.
Qed.

Lemma rstrip_sep_app_sep (d : string) :
  endswith_sep d = false → rstrip_sep (d +:+ "/") = d.
Proof.
  induction d as [|c d IH]; [done|]. intros Hd.
  rewrite Str.app_cons. simpl. rewrite all_sep_app. simpl. rewrite andb_true_r.
  destruct (is_sep c && all_sep d) eqn:E.
  - apply andb_true_iff in E as [Hc Hs].
    destruct (all_sep_ends _ Hs) as [->|Hs'].
    + simpl in Hd. congruence.
    + apply endswith_sep_cons in Hd. congruence.
  - f_equal. apply IH. by apply endswith_sep_cons in Hd.
Qed.

Lemma head_upto_sep_app (x y : string) :
  x = "" ∨ endswith_sep x = true → contains_sep y = false →
  head_upto_sep (x +:+ y) = x.
Proof.
  intros Hx Hy. apply (Str.app_inv_tail _ _ y).
  by rewrite <- (basename_app x y) at 2; [rewrite head_basename|..].
Qed.

(** The pattern built on line 39 splits back into the root and [*]. *)
Lemma split_join_star (data_dir : string) :
  plain_root data_dir → split (join data_dir "*") = (data_dir, "*").
Proof.
  intros (Hne & Hend & _). unfold join. simpl.
  apply String.eqb_neq in Hne as Hne'. rewrite Hne', Hend. simpl.
  unfold split.
  replace (data_dir +:+ "/" +:+ "*") with ((data_dir +:+ "/") +:+ "*")
    by by rewrite Str.app_assoc.
  rewrite head_upto_sep_app, basename_app;
    [|right; by apply endswith_sep_app..|done|right; by apply endswith_sep_app|done].
  assert (String.eqb (data_dir +:+ "/") "" = false) as ->.
  { apply String.eqb_neq. by intros [_ ?]%Str.app_eq_nil. }
  assert (all_sep (data_dir +:+ "/") = false) as ->.
  { rewrite all_sep_app. destruct (all_sep data_dir) eqn:E; [|done].
    apply all_sep_ends in E as [?|?]; congruence. }
  simpl. by rewrite rstrip_sep_app_sep.
Qed.

Lemma join_name (d name : string) :
  d ≠ "" → endswith_sep d = false → wf_name name →
  join d name = d +:+ "/" +:+ name.
Proof.
  intros Hd%String.eqb_neq He [_ Hn]. unfold join.
  by rewrite (startswith_sep_contains _ Hn), Hd, He.
Qed.

(** For a plain root the directory part of the pattern is literal and its
    last component is the pattern [*]: [glob.glob] lists that one directory,
    which is the case [Glob.glob] models. *)
Lemma pattern_of_plain_root (data_dir : string) :
  plain_root data_dir →
  has_magic (split (join data_dir "*")).1 = false
  ∧ (split (join data_dir "*")).2 = "*"
  ∧ has_magic (split (join data_dir "*")).2 = true.
Proof.
  intros Hp. rewrite (split_join_star _ Hp). simpl.
  by destruct Hp as (_ & _ & ->).
Qed.

(** What [glob.glob] returns for the pattern of a plain root. *)
Lemma glob_plain_root (os : OS) (data_dir : string) :
  plain_root data_dir →
  glob os (join data_dir "*") = join data_dir <$> glob1_star os data_dir.
Proof.
  intros Hp. unfold glob. rewrite (split_join_star _ Hp).
  destruct Hp as (Hne%String.eqb_neq & _). by rewrite Hne.
Qed.

Lemma elem_of_glob1_star (os : OS) (d name : string) :
  name ∈ glob1_star os d ↔ name ∈ listdir os d ∧ ishidden name = false.
Proof. unfold glob1_star. rewrite list_elem_of_filter. tauto. Qed.

Lemma glob_plain_root_names (os : OS) (data_dir : string) :
  plain_root data_dir → wf_listing os data_dir →
  glob os (join data_dir "*")
  = String.app (data_dir +:+ "/") <$> glob1_star os data_dir.
Proof.
  intros Hp [Hwf _]. rewrite glob_plain_root by done.
  apply list_fmap_ext. intros _ name [Hn _]%list_elem_of_lookup_2%elem_of_glob1_star.
  destruct Hp as (? & ? & _).
  rewrite join_name, Str.app_assoc; [done..|].
  rewrite Forall_forall in Hwf. auto.
Qed.

(** A well-formed listing gives each path once. *)
Lemma NoDup_glob (os : OS) (data_dir : string) :
  plain_root data_dir → wf_listing os data_dir →
  NoDup (glob os (join data_dir "*")).
Proof.
  intros Hp Hwf. rewrite glob_plain_root_names by done.
  apply (NoDup_fmap_2 _). apply NoDup_filter. apply Hwf.
Qed.

Lemma wf_name_not_ends (P : string) : wf_name P → endswith_sep P = false.
Proof.
  intros [_ Hc]. destruct (endswith_sep P) eqn:E; [|done].
  apply endswith_sep_contains in E. congruence.
Qed.

Lemma basename_child (root P : string) :
  wf_name P → basename (root +:+ "/" +:+ P) = P.
Proof.
  intros [_ Hc]. rewrite <- Str.app_assoc. apply basename_app; [|done].
  right. by apply endswith_sep_app.
Qed.

Lemma pat_file_child (root P suffix : string) :
  wf_name P → contains_sep suffix = false →
  pat_file (root +:+ "/" +:+ P) suffix
  = root +:+ "/" +:+ P +:+ "/" +:+ P +:+ suffix.
Proof.
  intros HP Hs. rewrite ScanFacts.pat_file_shape, basename_child by done.
  unfold dir_prefix.
  assert (String.eqb (root +:+ "/" +:+ P) "" = false) as ->.
  { apply String.eqb_neq. intros [_ [? _]%Str.app_eq_nil]%Str.app_eq_nil. done. }
  assert (endswith_sep (root +:+ "/" +:+ P) = false) as ->.
  { rewrite <- Str.app_assoc, endswith_sep_app by apply HP.
    by apply wf_name_not_ends. }
  simpl. by rewrite !Str.app_assoc.
Qed.

Lemma record_of_child (root P : string) :
  wf_name P → record_of (root +:+ "/" +:+ P) = record_at root P.
Proof.
  intros HP. unfold record_of, record_at. by rewrite !pat_file_child.
Qed.

End GlobFacts.

(** ** What [setup] does, in one equation *)

Module SetupFacts.
Import ScanFacts SklearnFacts.

Section with_world.
Context (G : BitGenerator) (fs : FileSystem).

Lemma setup_unfold (st : State) :
  setup G fs st =
  let dirs := patient_dirs fs (data_dir (self st)) in
  let data_list := scan fs dirs in
  if length dirs =? 0
  then (Raise (FileNotFoundError (msg_not_found (data_dir (self st)))), st)
  else
    match Sklearn.train_test_split G data_list Float64.lit_0_2 42 with
    | Ok (train, val) =>
        (Ok (), {| self := with_files (self st) train val;
                   stdout := stdout st ++ [msg_found (length data_list);
                                           msg_split (length train) (length val)] |})
    | Raise e => (Raise e, printed st [msg_found (length data_list)])
    end.
Proof.
  unfold setup, mbind, M_bind, get_self. cbv zeta.
  destruct (length (patient_dirs fs (data_dir (self st))) =? 0); [done|].
  unfold print at 1. unfold lift. cbv beta iota.
  destruct (Sklearn.train_test_split G _ _ _) as [[train val]|e]; [|done].
  unfold set_train_files, set_val_files, print, with_files. simpl.
  by rewrite <- app_assoc.
Qed.

(** No directory at all: the explicit failure, before anything else
    happens. *)
Lemma setup_no_dirs (st : State) :
  patient_dirs fs (data_dir (self st)) = [] →
  setup G fs st
  = (Raise (FileNotFoundError (msg_not_found (data_dir (self st)))), st).
Proof. intros H. rewrite setup_unfold. cbv zeta. by rewrite H. Qed.

(** Directories, but fewer than two valid records: the split refuses. *)
Lemma setup_too_few (st : State) :
  let dirs := patient_dirs fs (data_dir (self st)) in
  dirs ≠ [] → length (scan fs dirs) < 2 →
  setup G fs st
  = (Raise ValueError, printed st [msg_found (length (scan fs dirs))]).
Proof.
  intros dirs Hne Hlen. rewrite setup_unfold. cbv zeta. fold dirs.
  destruct (Nat.eqb_spec (length dirs) 0) as [H0|_].
  { destruct dirs; [done|simpl in H0; lia]. }
  destruct (train_test_split_total G (scan fs dirs) Float64.lit_0_2 42)
    as [(train & val & H)| ->]; [|done].
  apply train_test_split_Ok in H as [_ H].
  rewrite validate_shuffle_split_small in H by done. done.
Qed.

(** At least two valid records: the split succeeds and both fields are
    assigned. *)
Lemma setup_enough (st : State) :
  let dirs := patient_dirs fs (data_dir (self st)) in
  2 ≤ length (scan fs dirs) →
  (Z.of_nat (length (scan fs dirs)) < 2 ^ 50)%Z →
  ∃ train val,
    setup G fs st
    = (Ok (), {| self := with_files (self st) train val;
                 stdout := stdout st ++ [msg_found (length (scan fs dirs));
                                         msg_split (length train) (length val)] |})
    ∧ train ++ val ≡ₚ scan fs dirs
    ∧ length val = (length (scan fs dirs) + 4) / 5
    ∧ length train = length (scan fs dirs) - (length (scan fs dirs) + 4) / 5.
Proof.
  intros dirs Hlen Hb. rewrite setup_unfold. cbv zeta. fold dirs.
  destruct (Nat.eqb_spec (length dirs) 0) as [H0|_].
  { rewrite length_scan in Hlen. pose proof (length_filter (valid fs) dirs). lia. }
  destruct (train_test_split_total G (scan fs dirs) Float64.lit_0_2 42)
    as [(train & val & H)|H].
  - rewrite H. exists train, val. split; [done|].
    apply train_test_split_Ok in H as [Hperm H]. split; [done|].
    rewrite validate_shuffle_split_0_2 in H by done.
    injection H as H1 H2. done.
  - apply train_test_split_Raise in H as [_ H].
    rewrite validate_shuffle_split_0_2 in H by done. done.
Qed.

(** Whatever [setup] returns was produced by the split, from the scanned
    records. *)
Lemma setup_Ok (st st' : State) :
  setup G fs st = (Ok (), st') →
  let data_list := scan fs (patient_dirs fs (data_dir (self st))) in
  Sklearn.train_test_split G data_list Float64.lit_0_2 42
  = Ok (train_files (self st'), val_files (self st'))
  ∧ self st' = with_files (self st) (train_files (self st')) (val_files (self st'))
  ∧ train_files (self st') ++ val_files (self st') ≡ₚ data_list.
Proof.
  rewrite setup_unfold. cbv zeta.
  destruct (length _ =? 0); [done|].
  destruct (Sklearn.train_test_split G _ _ _) as [[train val]|e] eqn:H; [|done].
  intros [= <-]. simpl. split; [done|]. split; [done|].
  by apply train_test_split_Ok in H as [? _].
Qed.

(** A failing [setup] leaves the object as it was. *)
Lemma setup_Raise (st st' : State) (e : exn) :
  setup G fs st = (Raise e, st') →
  self st' = self st
  ∧ (e = FileNotFoundError (msg_not_found (data_dir (self st)))
     ∧ patient_dirs fs (data_dir (self st)) = [] ∧ st' = st
     ∨ e = ValueError
       ∧ patient_dirs fs (data_dir (self st)) ≠ []
       ∧ Sklearn.train_test_split G
           (scan fs (patient_dirs fs (data_dir (self st)))) Float64.lit_0_2 42
         = Raise ValueError).
Proof.
  rewrite setup_unfold. cbv zeta.
  destruct (Nat.eqb_spec (length (patient_dirs fs (data_dir (self st)))) 0)
    as [H0|H0].
  - intros [= <- <-]. split; [done|]. left.
    by apply nil_length_inv in H0.
  - destruct (Sklearn.train_test_split G _ _ _) as [[train val]|e'] eqn:H; [done|].
    intros [= <- <-]. split; [done|]. right.
    apply train_test_split_Raise in H as [-> _].
    split; [done|]. split; [|done]. by intros H1; rewrite H1 in H0.
Qed.

End with_world.

End SetupFacts.

(** ** Facts about the dataset constructor *)

Module MonaiFacts.
Import Monai.

Section with_pipeline.
Context (T : Pipeline).

Lemma fill_cache_Ok (t : Transform) (items : list PatientRecord) :
  Forall (λ item, apply_cached T t item = Ok ()) items →
  fill_cache T t items = Ok ().
Proof. induction 1 as [|item items Hi _ IH]; [done|]. simpl. by rewrite Hi. Qed.

(** Whatever was cached, a dataset that is built holds the arguments of the
    call. *)
Lemma CacheDataset_init_inv (data : list PatientRecord) (t : Transform)
    (c : Float64.t) (n : Z) (ds : CacheDataset) :
  CacheDataset_init T data t c n = Ok ds →
  ds = {| data := data; transform := t; cache_rate := c; num_workers := n |}.
Proof.
  unfold CacheDataset_init. cbv zeta.
  destruct (if (compute_cache_num (length data) c <=? 0)%Z then _ else _);
    simpl; congruence.
Qed.

(** The dataset is built when the pipeline accepts every record. *)
Lemma CacheDataset_init_Ok (data : list PatientRecord) (t : Transform)
    (c : Float64.t) (n : Z) :
  Forall (λ item, apply_cached T t item = Ok ()) data →
  CacheDataset_init T data t c n
  = Ok {| data := data; transform := t; cache_rate := c; num_workers := n |}.
Proof.
  intros Hall. unfold CacheDataset_init. cbv zeta.
  destruct (compute_cache_num (length data) c <=? 0)%Z; [done|].
  rewrite fill_cache_Ok; [done|]. by apply Forall_take.
Qed.

(** On an empty list nothing is run. *)
Lemma CacheDataset_init_nil (t : Transform) (c : Float64.t) (n : Z) :
  CacheDataset_init T [] t c n
  = Ok {| data := []; transform := t; cache_rate := c; num_workers := n |}.
Proof. by apply CacheDataset_init_Ok. Qed.

End with_pipeline.

End MonaiFacts.

(** * The claims *)

Import ScanFacts SklearnFacts SetupFacts.

(** ** C1: the no-data failure *)

(** C1, as stated, fails: a root whose only patient folder holds no file has
    zero valid records, yet [setup] does not raise [FileNotFoundError]; the
    folder passes the check of line 45 and the split raises [ValueError]. *)
Lemma C1_counterexample :
  let fs := Glob.file_system Examples.os_no_files in
  scan fs (patient_dirs fs "data") = []
  ∧ setup Examples.lcg fs Examples.fresh
    = (Raise ValueError, printed Examples.fresh [msg_found 0])
  ∧ ∀ msg, (setup Examples.lcg fs Examples.fresh).1 ≠ Raise (FileNotFoundError msg).
Proof. repeat split. vm_compute. discriminate. Qed.

(** C1, amended: with zero valid records [setup] always fails and leaves the
    object untouched.  It raises [FileNotFoundError] at once (nothing
    printed) exactly when the scan finds no directory; when directories
    exist but none is valid, the failure is the [ValueError] of the split,
    after the count has been printed. *)
Theorem C1_no_data_failure (G : BitGenerator) (fs : FileSystem) (st : State) :
  let dirs := patient_dirs fs (data_dir (self st)) in
  scan fs dirs = [] →
  (dirs = [] →
   setup G fs st
   = (Raise (FileNotFoundError (msg_not_found (data_dir (self st)))), st))
  ∧ (dirs ≠ [] →
     setup G fs st = (Raise ValueError, printed st [msg_found 0]))
  ∧ ∃ e st', setup G fs st = (Raise e, st') ∧ self st' = self st.
Proof.
  intros dirs Hscan.
  assert (dirs ≠ [] →
          setup G fs st = (Raise ValueError, printed st [msg_found 0])) as Hv.
  { intros Hne. pose proof (setup_too_few G fs st Hne) as H. fold dirs in H.
    rewrite Hscan in H. apply H. simpl. lia. }
  split; [apply setup_no_dirs|]. split; [done|].
  destruct (decide (dirs = [])) as [Hd|Hd].
  - eexists _, _. split; [by apply setup_no_dirs|done].
  - eexists _, _. split; [by apply Hv|done].
Qed.

Lemma C1_no_data_failure_witness :
  let fs := Glob.file_system Examples.os_empty in
  let st := Examples.fresh in
  let dirs := patient_dirs fs (data_dir (self st)) in
  scan fs dirs = []
  ∧ ((dirs = [] →
      setup Examples.lcg fs st
      = (Raise (FileNotFoundError (msg_not_found (data_dir (self st)))), st))
     ∧ (dirs ≠ [] →
        setup Examples.lcg fs st = (Raise ValueError, printed st [msg_found 0]))
     ∧ ∃ e st', setup Examples.lcg fs st = (Raise e, st') ∧ self st' = self st).
Proof.
  split; [reflexivity|].
  apply (C1_no_data_failure Examples.lcg (Glob.file_system Examples.os_empty)
           Examples.fresh).
  reflexivity.
Defined.

(** ** C2: a single valid record *)

(** C2, as stated, fails: in the scenario of the spec the scan keeps the one
    valid folder, and the split then raises [ValueError] (one sample would
    leave the training set empty); [setup] does not complete, and both lists
    stay empty. *)
Lemma C2_counterexample :
  let fs := Glob.file_system Examples.os_one_valid in
  scan fs (patient_dirs fs "data")
  = [record_at "data" "BraTS-GLI-00001"]
  ∧ setup Examples.lcg fs Examples.fresh
    = (Raise ValueError, printed Examples.fresh [msg_found 1])
  ∧ train_files (self (setup Examples.lcg fs Examples.fresh).2) = [].
Proof. repeat split. Qed.

(** C2, amended: when the scan yields exactly one valid record, [setup]
    prints the count and fails with the [ValueError] of the split; the
    object, and so both lists, stay as they were. *)
Theorem C2_single_record (G : BitGenerator) (fs : FileSystem) (st : State)
    (r : PatientRecord) :
  scan fs (patient_dirs fs (data_dir (self st))) = [r] →
  setup G fs st = (Raise ValueError, printed st [msg_found 1])
  ∧ self (setup G fs st).2 = self st.
Proof.
  intros Hscan.
  assert (patient_dirs fs (data_dir (self st)) ≠ []) as Hne.
  { intros H. by rewrite H in Hscan. }
  pose proof (setup_too_few G fs st Hne) as H.
  rewrite Hscan in H. rewrite H by (simpl; lia). done.
Qed.

Lemma C2_single_record_witness :
  let fs := Glob.file_system Examples.os_one_valid in
  let st := Examples.fresh in
  scan fs (patient_dirs fs (data_dir (self st)))
  = [record_at "data" "BraTS-GLI-00001"]
  ∧ setup Examples.lcg fs st = (Raise ValueError, printed st [msg_found 1])
  ∧ self (setup Examples.lcg fs st).2 = self st.
Proof.
  split; [reflexivity|].
  apply (C2_single_record Examples.lcg (Glob.file_system Examples.os_one_valid)
           Examples.fresh (record_at "data" "BraTS-GLI-00001")).
  reflexivity.
Defined.

(** ** C3: the sizes of the two lists *)

Lemma filter_all {A} (P : A → Prop) `{∀ x, Decision (P x)} (l : list A) :
  Forall P l → filter P l = l.
Proof.
  induction 1 as [|x l Hx _ IH]; [done|].
  by rewrite filter_cons_True, IH.
Qed.

Lemma train_size_floor (N : nat) : N - (N + 4) / 5 = 4 * N / 5.
Proof.
  pose proof (Nat.div_mod_eq (N + 4) 5).
  pose proof (Nat.mod_upper_bound (N + 4) 5).
  pose proof (Nat.div_mod_eq (4 * N) 5).
  pose proof (Nat.mod_upper_bound (4 * N) 5). lia.
Qed.

(** When every directory among the listed entries is a valid patient folder,
    each of them becomes a record. *)
Lemma scan_all_valid (fs : FileSystem) (d : string) :
  let listing := glob_glob fs (PosixPath.join d "*") in
  let folders := filter (λ p, os_path_isdir fs p = true) listing in
  (∀ p, p ∈ folders → valid fs p) →
  patient_dirs fs d ≡ₚ folders
  ∧ scan fs (patient_dirs fs d) = record_of <$> patient_dirs fs d.
Proof.
  intros listing folders Hall.
  assert (patient_dirs fs d ≡ₚ folders) as Hd.
  { unfold patient_dirs, folders. by rewrite sorted_Permutation. }
  split; [done|]. rewrite scan_spec. f_equal.
  apply filter_all, Forall_forall.
  intros p Hp. rewrite Hd in Hp. by apply Hall.
Qed.

(** C3, as stated, fails: with two valid folders the split keeps one record
    for training and one for validation, while [round(0.8 * 2) = 2]. *)
Lemma C3_counterexample :
  let fs := Glob.file_system (Examples.os_patients ["a"; "b"]) in
  let st' := (setup Examples.lcg fs Examples.fresh).2 in
  length (scan fs (patient_dirs fs "data")) = 2
  ∧ (setup Examples.lcg fs Examples.fresh).1 = Ok ()
  ∧ length (train_files (self st')) = 1
  ∧ length (val_files (self st')) = 1
  ∧ round_0_8 2 = 2.
Proof. repeat split. Qed.

(** C3, amended: for every root with [N >= 2] valid patient folders and no
    invalid folder (entries that are not directories do not count),
    [setup] returns, and the [N] records are split into
    [N - ceil(0.2 N) = floor(0.8 N)] training records and [ceil(0.2 N)]
    validation records; the two lists do not overlap and every record is in
    exactly one of them. *)
Theorem C3_split_sizes (G : BitGenerator) (fs : FileSystem) (st : State) :
  let listing := glob_glob fs (PosixPath.join (data_dir (self st)) "*") in
  let folders := filter (λ p, os_path_isdir fs p = true) listing in
  let N := length folders in
  NoDup listing →
  (∀ p, p ∈ folders → valid fs p) →
  2 ≤ N → (Z.of_nat N < 2 ^ 50)%Z →
  ∃ train val st',
    setup G fs st = (Ok (), st')
    ∧ train_files (self st') = train ∧ val_files (self st') = val
    ∧ length train + length val = N
    ∧ length val = (N + 4) / 5
    ∧ length train = 4 * N / 5
    ∧ train ++ val ≡ₚ record_of <$> folders
    ∧ NoDup (train ++ val)
    ∧ (∀ r, r ∈ train → r ∉ val)
    ∧ (∀ p, p ∈ folders →
         record_of p ∈ train ∧ record_of p ∉ val
         ∨ record_of p ∈ val ∧ record_of p ∉ train).
Proof.
  intros listing folders N Hnd Hall HN Hb.
  destruct (scan_all_valid fs (data_dir (self st)) Hall) as [Hdirs Hscan].
  fold listing folders in Hdirs.
  assert (length (scan fs (patient_dirs fs (data_dir (self st)))) = N) as Hlen.
  { by rewrite Hscan, length_fmap, Hdirs. }
  destruct (setup_enough G fs st) as (train & val & Hs & Hperm & Hval & Htrain).
  { rewrite Hlen. done. }
  { rewrite Hlen. done. }
  rewrite Hlen in Hval, Htrain. rewrite Hscan, Hdirs in Hperm.
  assert (NoDup (train ++ val)) as Hnd'.
  { rewrite Hperm. apply (NoDup_fmap_2 _). by apply NoDup_filter. }
  assert ((N + 4) / 5 ≤ N) as Hle.
  { apply Nat.Div0.div_le_upper_bound. lia. }
  apply NoDup_app in Hnd' as Happ. destruct Happ as (_ & Hdisj & _).
  exists train, val. eexists. split; [exact Hs|]. simpl.
  split_and!; try done.
  - lia.
  - by rewrite Htrain, train_size_floor.
  - intros p Hp.
    assert (record_of p ∈ train ++ val) as Hin.
    { rewrite Hperm. by apply list_elem_of_fmap_2. }
    apply elem_of_app in Hin as [Hin|Hin]; [left|right]; split; try done.
    + by apply Hdisj.
    + intros Ht. by apply (Hdisj _ Ht).
Qed.

Lemma C3_split_sizes_witness :
  let fs := Glob.file_system Examples.os_six_patients in
  let st := Examples.fresh in
  let listing := glob_glob fs (PosixPath.join (data_dir (self st)) "*") in
  let folders := filter (λ p, os_path_isdir fs p = true) listing in
  let N := length folders in
  ∃ train val st',
    setup Examples.lcg fs st = (Ok (), st')
    ∧ train_files (self st') = train ∧ val_files (self st') = val
    ∧ length train + length val = N
    ∧ length val = (N + 4) / 5
    ∧ length train = 4 * N / 5
    ∧ train ++ val ≡ₚ record_of <$> folders
    ∧ NoDup (train ++ val)
    ∧ (∀ r, r ∈ train → r ∉ val)
    ∧ (∀ p, p ∈ folders →
         record_of p ∈ train ∧ record_of p ∉ val
         ∨ record_of p ∈ val ∧ record_of p ∉ train).
Proof.
  apply (C3_split_sizes Examples.lcg (Glob.file_system Examples.os_six_patients)
           Examples.fresh).
  - compute_done.
  - apply Forall_forall. compute_done.
  - vm_compute. lia.
  - vm_compute. reflexivity.
Defined.

(** On that root: six folders and a stray file, four records for training
    and two for validation. *)
Example setup_six_patients :
  let fs := Glob.file_system Examples.os_six_patients in
  let st' := (setup Examples.lcg fs Examples.fresh).2 in
  length (glob_glob fs "data/*") = 7
  ∧ (setup Examples.lcg fs Examples.fresh).1 = Ok ()
  ∧ length (train_files (self st')) = 4
  ∧ length (val_files (self st')) = 2
  ∧ stdout st' = [msg_found 6; msg_split 4 2].
Proof. vm_compute. repeat split. Qed.

(** ** C4: which folders become records *)


Lemma filter_ext_in {A} (P P' : A → Prop)
    `{∀ x, Decision (P x)} `{∀ x, Decision (P' x)} (l : list A) :
  (∀ q, q ∈ l → (P' q ↔ P q)) → filter P' l = filter P l.
Proof.
  induction l as [|x l IH]; [done|]. intros Hiff.
  rewrite !filter_cons, IH by (intros q Hq; apply Hiff; by right).
  assert (P' x ↔ P x) as Hx by (apply Hiff; by left).
  destruct (decide (P x)); [rewrite decide_True|rewrite decide_False]; tauto.
Qed.




(** On a root of complete folders every scanned directory yields its
    record. *)
Example scan_six_patients :
  let fs := Glob.file_system Examples.os_six_patients in
  let dirs := patient_dirs fs "data" in
  length dirs = 6
  ∧ Forall (λ q, record_of q ∈ scan fs dirs) dirs
  ∧ scan (with_exists fs (λ path,
            bool_decide (path ∈ (dirs ≫= λ q, [pat_file q "-t1n.nii.gz";
                                                pat_file q "-seg.nii.gz"]))))
         dirs
    = scan fs dirs.
Proof. split_and!; [reflexivity|compute_done|reflexivity]. Qed.

(** On the root of [os_missing_t1], [setup] returns with the two complete
    folders, one in each list. *)
Example setup_missing_t1 :
  let fs := Glob.file_system Examples.os_missing_t1 in
  (setup Examples.lcg fs Examples.fresh).1 = Ok ()
  ∧ length (scan fs (patient_dirs fs "data")) = 2
  ∧ length (scan (with_file fs "data/c/c-t1n.nii.gz") (patient_dirs fs "data")) = 3.
Proof. repeat split. Qed.

(** ** C5: determinism *)

Lemma patient_dirs_listing_order (fs1 fs2 : FileSystem) (d : string) :
  glob_glob fs1 (PosixPath.join d "*") ≡ₚ glob_glob fs2 (PosixPath.join d "*") →
  (∀ p, os_path_isdir fs1 p = os_path_isdir fs2 p) →
  patient_dirs fs1 d = patient_dirs fs2 d.
Proof.
  intros Hperm Hdir. unfold patient_dirs.
  rewrite (sorted_canonical _ _ Hperm).
  apply filter_ext_in. intros p _. by rewrite Hdir.
Qed.

Lemma scan_exists_ext (fs1 fs2 : FileSystem) (dirs : list string) :
  (∀ p, os_path_exists fs1 p = os_path_exists fs2 p) →
  scan fs1 dirs = scan fs2 dirs.
Proof.
  intros Hex. rewrite !scan_spec. f_equal. apply filter_ext_in.
  intros p _. unfold valid. by rewrite !Hex.
Qed.

(** C5: [setup] is a function of the root contents: on two disks with the
    same entries under the root (in whatever order the kernel lists them),
    the same directories and the same files, started from the same object,
    it returns the same result and leaves the same lists, in the same order;
    and a second invocation on the object left by the first one leaves both
    lists as the first one did.  The seed is the constant 42 of line 71. *)
Theorem C5_setup_deterministic (G : BitGenerator) (fs1 fs2 : FileSystem)
    (st : State) :
  let d := data_dir (self st) in
  glob_glob fs1 (PosixPath.join d "*") ≡ₚ glob_glob fs2 (PosixPath.join d "*") →
  (∀ p, os_path_isdir fs1 p = os_path_isdir fs2 p) →
  (∀ p, os_path_exists fs1 p = os_path_exists fs2 p) →
  setup G fs1 st = setup G fs2 st
  ∧ (let st1 := (setup G fs1 st).2 in
     (setup G fs2 st1).1 = (setup G fs1 st).1
     ∧ self (setup G fs2 st1).2 = self st1)
  ∧ StronglySorted String.le (patient_dirs fs1 d).
Proof.
  intros d Hperm Hdir Hex.
  pose proof (patient_dirs_listing_order fs1 fs2 d Hperm Hdir) as Hd.
  assert (∀ st0, data_dir (self st0) = d → setup G fs1 st0 = setup G fs2 st0)
    as Heq.
  { intros st0 Hst0. rewrite !setup_unfold. cbv zeta. rewrite Hst0, Hd.
    by rewrite (scan_exists_ext fs1 fs2 _ Hex). }
  split; [by apply Heq|]. split; [|apply patient_dirs_StronglySorted].
  cbv zeta. rewrite <- Heq.
  2:{ destruct (setup G fs1 st) as [[[]|e] st1] eqn:Hs; simpl.
      - apply setup_Ok in Hs as (_ & -> & _). done.
      - apply setup_Raise in Hs as [-> _]. done. }
  destruct (setup G fs1 st) as [[[]|e] st1] eqn:Hs; simpl.
  - pose proof (setup_Ok G fs1 st st1 Hs) as (Hsplit & Hself & _).
    cbv zeta in Hsplit. rewrite setup_unfold. cbv zeta.
    assert (data_dir (self st1) = data_dir (self st)) as -> by by rewrite Hself.
    destruct (length (patient_dirs fs1 (data_dir (self st))) =? 0) eqn:E.
    { rewrite setup_unfold in Hs. cbv zeta in Hs. by rewrite E in Hs. }
    rewrite Hsplit. simpl. split; [done|]. by rewrite Hself.
  - apply setup_Raise in Hs as [Hself Hcase].
    rewrite setup_unfold. cbv zeta. rewrite Hself.
    destruct Hcase as [(-> & -> & _)|(-> & Hne & ->)]; [done|].
    destruct (Nat.eqb_spec (length (patient_dirs fs1 (data_dir (self st)))) 0)
      as [H0|_]; [by apply nil_length_inv in H0|]. done.
Qed.

Lemma C5_setup_deterministic_witness :
  let fs1 := Glob.file_system (Examples.os_patients ["c"; "a"; "b"; "e"; "d"]) in
  let fs2 := Examples.reversed_listing fs1 in
  let st := Examples.fresh in
  setup Examples.lcg fs1 st = setup Examples.lcg fs2 st
  ∧ (let st1 := (setup Examples.lcg fs1 st).2 in
     (setup Examples.lcg fs2 st1).1 = (setup Examples.lcg fs1 st).1
     ∧ self (setup Examples.lcg fs2 st1).2 = self st1)
  ∧ StronglySorted String.le (patient_dirs fs1 (data_dir (self st))).
Proof.
  apply (C5_setup_deterministic Examples.lcg
           (Glob.file_system (Examples.os_patients ["c"; "a"; "b"; "e"; "d"]))
           (Examples.reversed_listing
              (Glob.file_system (Examples.os_patients ["c"; "a"; "b"; "e"; "d"])))
           Examples.fresh).
  - compute_done.
  - reflexivity.
  - reflexivity.
Defined.

(** ** C6: the paths of a record *)

Lemma join_star_trailing_sep (d : string) :
  d ≠ "" → PosixPath.endswith_sep d = false →
  PosixPath.join (d +:+ "/") "*" = PosixPath.join d "*".
Proof.
  intros Hne Hend. unfold PosixPath.join. simpl.
  apply String.eqb_neq in Hne as ->. rewrite Hend.
  rewrite PosixPathFacts.endswith_sep_app by done. simpl.
  rewrite orb_true_r. by rewrite Str.app_assoc.
Qed.

(** C6, as stated, fails: for the root ["data//"] the listing of
    [glob.glob] drops the trailing separators, so the label path stored for
    the patient [a] is [data/a/a-seg.nii.gz]: neither the literal
    [<root>/P/P-seg.nii.gz], nor what joining the root, [P] and the file
    name gives. *)
Lemma C6_counterexample :
  let fs := Glob.file_system (Examples.os_patients ["a"; "b"]) in
  let root := "data//" in
  let st := {| self := init root 1 4 default_cache_rate; stdout := [] |} in
  let st' := (setup Examples.lcg fs st).2 in
  (setup Examples.lcg fs st).1 = Ok ()
  ∧ label <$> train_files (self st') ++ val_files (self st')
    = ["data/a/a-seg.nii.gz"; "data/b/b-seg.nii.gz"]
  ∧ label (record_at root "a") = "data///a/a-seg.nii.gz"
  ∧ PosixPath.join (PosixPath.join root "a") "a-seg.nii.gz"
    = "data//a/a-seg.nii.gz".
Proof. vm_compute. repeat split. Qed.

(** C6, amended: under a plain root [d] (not empty, no trailing separator,
    no pattern character) whose listing is well formed, the records of
    [data_list] are exactly the records [record_at d P] of the visible
    directory names [P] whose [t1n] and [seg] files exist: four modality
    paths in the order t1n, t1c, t2w, t2f and the label path
    [d/P/P-seg.nii.gz], where [P] is the base name of the directory; every
    record [setup] stores in either list is one of them; and the root
    written with one trailing separator gives the same directories, the
    separator not being doubled. *)
Theorem C6_record_paths (G : BitGenerator) (os : Glob.OS) (st : State) :
  let d := data_dir (self st) in
  let fs := Glob.file_system os in
  Glob.plain_root d → Glob.wf_listing os d →
  (∀ r, r ∈ scan fs (patient_dirs fs d) ↔
     ∃ P, P ∈ Glob.listdir os d ∧ Glob.ishidden P = false
          ∧ Glob.isdir os (d +:+ "/" +:+ P) = true
          ∧ Glob.exists_ os (d +:+ "/" +:+ P +:+ "/" +:+ P +:+ "-t1n.nii.gz") = true
          ∧ Glob.exists_ os (d +:+ "/" +:+ P +:+ "/" +:+ P +:+ "-seg.nii.gz") = true
          ∧ r = record_at d P)
  ∧ (∀ P, P ∈ Glob.listdir os d →
       PosixPath.basename (d +:+ "/" +:+ P) = P
       ∧ record_of (d +:+ "/" +:+ P) = record_at d P
       ∧ length (image (record_at d P)) = 4)
  ∧ (∀ st' r, setup G fs st = (Ok (), st') →
       r ∈ train_files (self st') ++ val_files (self st') →
       ∃ P, P ∈ Glob.listdir os d ∧ r = record_at d P)
  ∧ patient_dirs fs (d +:+ "/") = patient_dirs fs d.
Proof.
  intros d fs Hplain Hwf.
  assert (∀ P, P ∈ Glob.listdir os d → Glob.wf_name P) as Hname.
  { destruct Hwf as [Hwf _]. by rewrite Forall_forall in Hwf. }
  assert (∀ p, p ∈ patient_dirs fs d ↔
            ∃ P, P ∈ Glob.listdir os d ∧ Glob.ishidden P = false
                 ∧ p = d +:+ "/" +:+ P ∧ Glob.isdir os p = true) as Hdirs.
  { intros p. rewrite elem_of_patient_dirs. simpl.
    rewrite GlobFacts.glob_plain_root_names, list_elem_of_fmap by done.
    setoid_rewrite GlobFacts.elem_of_glob1_star.
    setoid_rewrite Str.app_assoc. split.
    - intros [(P & -> & ? & ?) ?]. eauto 10.
    - intros (P & ? & ? & -> & ?). eauto 10. }
  assert (∀ r, r ∈ scan fs (patient_dirs fs d) ↔
     ∃ P, P ∈ Glob.listdir os d ∧ Glob.ishidden P = false
          ∧ Glob.isdir os (d +:+ "/" +:+ P) = true
          ∧ Glob.exists_ os (d +:+ "/" +:+ P +:+ "/" +:+ P +:+ "-t1n.nii.gz") = true
          ∧ Glob.exists_ os (d +:+ "/" +:+ P +:+ "/" +:+ P +:+ "-seg.nii.gz") = true
          ∧ r = record_at d P) as Hscan.
  { intros r. rewrite elem_of_scan. split.
    - intros (p & -> & (P & HP & Hh & -> & Hd)%Hdirs & [Ht1 Hseg]).
      simpl in Ht1, Hseg.
      rewrite GlobFacts.pat_file_child in Ht1, Hseg by auto.
      exists P. rewrite GlobFacts.record_of_child by auto. done.
    - intros (P & HP & Hh & Hd & Ht1 & Hseg & ->).
      exists (d +:+ "/" +:+ P).
      rewrite GlobFacts.record_of_child by auto. split; [done|]. split.
      + apply Hdirs. eauto 10.
      + unfold valid. simpl. rewrite !GlobFacts.pat_file_child by auto. done. }
  split; [done|]. split; [|split].
  - intros P HP. split; [by apply GlobFacts.basename_child, Hname|].
    split; [by apply GlobFacts.record_of_child, Hname|done].
  - intros st' r Hs Hr. apply setup_Ok in Hs as (_ & _ & Hperm).
    fold d fs in Hperm. rewrite Hperm in Hr.
    apply Hscan in Hr as (P & ? & _ & _ & _ & _ & ->). eauto.
  - destruct Hplain as (Hne & Hend & _). unfold patient_dirs.
    by rewrite join_star_trailing_sep.
Qed.

Lemma C6_record_paths_witness :
  let os := Examples.os_patients ["c"; "a"; "b"] in
  let st := Examples.fresh in
  let d := data_dir (self st) in
  let fs := Glob.file_system os in
  (∀ r, r ∈ scan fs (patient_dirs fs d) ↔
     ∃ P, P ∈ Glob.listdir os d ∧ Glob.ishidden P = false
          ∧ Glob.isdir os (d +:+ "/" +:+ P) = true
          ∧ Glob.exists_ os (d +:+ "/" +:+ P +:+ "/" +:+ P +:+ "-t1n.nii.gz") = true
          ∧ Glob.exists_ os (d +:+ "/" +:+ P +:+ "/" +:+ P +:+ "-seg.nii.gz") = true
          ∧ r = record_at d P)
  ∧ (∀ P, P ∈ Glob.listdir os d →
       PosixPath.basename (d +:+ "/" +:+ P) = P
       ∧ record_of (d +:+ "/" +:+ P) = record_at d P
       ∧ length (image (record_at d P)) = 4)
  ∧ (∀ st' r, setup Examples.lcg fs st = (Ok (), st') →
       r ∈ train_files (self st') ++ val_files (self st') →
       ∃ P, P ∈ Glob.listdir os d ∧ r = record_at d P)
  ∧ patient_dirs fs (d +:+ "/") = patient_dirs fs d.
Proof.
  apply (C6_record_paths Examples.lcg (Examples.os_patients ["c"; "a"; "b"])
           Examples.fresh).
  - unfold Glob.plain_root. compute_done.
  - unfold Glob.wf_listing, Glob.wf_name. compute_done.
Defined.

(** The lists [setup] leaves on that root. *)
Example setup_three_patients :
  let fs := Glob.file_system (Examples.os_patients ["c"; "a"; "b"]) in
  let st' := (setup Examples.lcg fs Examples.fresh).2 in
  (setup Examples.lcg fs Examples.fresh).1 = Ok ()
  ∧ train_files (self st') = [record_at "data" "a"; record_at "data" "b"]
  ∧ val_files (self st') = [record_at "data" "c"]
  ∧ stdout st' = [msg_found 3; msg_split 2 1].
Proof. repeat split. Qed.

(** ** C7: which entries are scanned *)

(** C7, as stated, fails: a hidden directory is an immediate child of the
    root and a directory, but the pattern [*] of [glob.glob] does not match
    a name that starts with a dot, so it is never considered. *)
Lemma C7_counterexample :
  let os := Examples.os_hidden in
  ".cache" ∈ Glob.listdir os "data"
  ∧ Glob.isdir os "data/.cache" = true
  ∧ ("data/.cache" ∉ patient_dirs (Glob.file_system os) "data")
  ∧ patient_dirs (Glob.file_system os) "data" = ["data/BraTS-GLI-00001"].
Proof. split_and!; compute_done. Qed.

(** C7, amended: under a plain root, the scan considers exactly the
    immediate children of the root whose name does not start with a dot and
    that are directories, in lexicographically sorted order; every entry
    that is not a directory is left out. *)
Theorem C7_scanned_directories (os : Glob.OS) (d : string) :
  let fs := Glob.file_system os in
  Glob.plain_root d →
  StronglySorted String.le (patient_dirs fs d)
  ∧ (∀ p, p ∈ patient_dirs fs d ↔
       ∃ name, name ∈ Glob.listdir os d ∧ Glob.ishidden name = false
               ∧ p = PosixPath.join d name ∧ Glob.isdir os p = true)
  ∧ (∀ name, name ∈ Glob.listdir os d → Glob.wf_name name →
       PosixPath.join d name = d +:+ "/" +:+ name).
Proof.
  intros fs Hplain. split; [apply patient_dirs_StronglySorted|]. split.
  - intros p. rewrite elem_of_patient_dirs. simpl.
    rewrite GlobFacts.glob_plain_root, list_elem_of_fmap by done.
    setoid_rewrite GlobFacts.elem_of_glob1_star. split.
    + intros [(name & -> & ? & ?) ?]. eauto 10.
    + intros (name & ? & ? & -> & ?). eauto 10.
  - intros name _ Hname. destruct Hplain as (? & ? & _).
    by apply GlobFacts.join_name.
Qed.

Lemma C7_scanned_directories_witness :
  let os := Examples.os_hidden in
  let d := "data" in
  let fs := Glob.file_system os in
  StronglySorted String.le (patient_dirs fs d)
  ∧ (∀ p, p ∈ patient_dirs fs d ↔
       ∃ name, name ∈ Glob.listdir os d ∧ Glob.ishidden name = false
               ∧ p = PosixPath.join d name ∧ Glob.isdir os p = true)
  ∧ (∀ name, name ∈ Glob.listdir os d → Glob.wf_name name →
       PosixPath.join d name = d +:+ "/" +:+ name).
Proof.
  apply (C7_scanned_directories Examples.os_hidden "data").
  unfold Glob.plain_root. compute_done.
Defined.

(** ** C8: the configuration of the two loaders *)

(** C8: whatever the configured batch size, a validation loader has batch
    size 1 and does not shuffle, and a training loader has the configured
    batch size and shuffles.  The validation loader is built whenever the
    transform pipeline accepts the validation records and the worker count
    is not negative; the training loader whenever, in addition to the same
    for the training records, the batch size is positive and there is a
    training record. *)
Theorem C8_loader_configuration (T : Monai.Pipeline) (m : BraTSDataModule) :
  (∀ dl, val_dataloader T m = Ok dl →
     Torch.batch_size dl = 1%Z ∧ Torch.shuffle dl = false
     ∧ Monai.data (Torch.dataset dl) = val_files m)
  ∧ (∀ dl, train_dataloader T m = Ok dl →
       Torch.batch_size dl = batch_size m ∧ Torch.shuffle dl = true
       ∧ Monai.data (Torch.dataset dl) = train_files m)
  ∧ (Forall (λ r, Monai.apply_cached T get_val_transforms r = Ok ())
            (val_files m) →
     (0 ≤ num_workers m)%Z → ∃ dl, val_dataloader T m = Ok dl)
  ∧ (Forall (λ r, Monai.apply_cached T (get_train_transforms (64, 64, 64)%Z) r
                  = Ok ()) (train_files m) →
     (0 ≤ num_workers m)%Z → (0 < batch_size m)%Z → train_files m ≠ [] →
     ∃ dl, train_dataloader T m = Ok dl).
Proof.
  unfold val_dataloader, train_dataloader. cbv zeta. split_and!.
  - intros dl.
    destruct (Monai.CacheDataset_init T (val_files m) _ _ _) as [ds|e] eqn:Hds;
      [|done].
    apply MonaiFacts.CacheDataset_init_inv in Hds as ->. simpl.
    unfold Torch.DataLoader_init. simpl.
    destruct (num_workers m <? 0)%Z; [done|]. by intros [= <-].
  - intros dl.
    destruct (Monai.CacheDataset_init T (train_files m) _ _ _) as [ds|e] eqn:Hds;
      [|done].
    apply MonaiFacts.CacheDataset_init_inv in Hds as ->. simpl.
    unfold Torch.DataLoader_init. simpl.
    destruct (num_workers m <? 0)%Z; [done|].
    destruct (length (train_files m) =? 0); [done|].
    destruct (batch_size m <=? 0)%Z; [done|]. by intros [= <-].
  - intros Hall Hn. rewrite MonaiFacts.CacheDataset_init_Ok by done. simpl.
    unfold Torch.DataLoader_init. simpl.
    destruct (Z.ltb_spec (num_workers m) 0); [lia|]. eauto.
  - intros Hall Hn Hb Ht. rewrite MonaiFacts.CacheDataset_init_Ok by done. simpl.
    unfold Torch.DataLoader_init. simpl.
    destruct (Z.ltb_spec (num_workers m) 0); [lia|].
    destruct (Nat.eqb_spec (length (train_files m)) 0) as [H0|_].
    { by apply nil_length_inv in H0. }
    destruct (Z.leb_spec (batch_size m) 0); [lia|]. eauto.
Qed.

(** With the batch size configured to 2, after [setup] on six complete
    folders, and a pipeline that reads the five files of a record. *)
Example loaders_six_patients :
  let T := Examples.reading Examples.os_six_patients in
  let fs := Glob.file_system Examples.os_six_patients in
  let st := {| self := init "data" 2 4 default_cache_rate; stdout := [] |} in
  let m := self (setup Examples.lcg fs st).2 in
  (∃ dl, train_dataloader T m = Ok dl
         ∧ Torch.batch_size dl = 2%Z ∧ Torch.shuffle dl = true)
  ∧ (∃ dl, val_dataloader T m = Ok dl
           ∧ Torch.batch_size dl = 1%Z ∧ Torch.shuffle dl = false).
Proof. vm_compute. split; eexists; repeat split. Qed.

(** [setup] accepts folders that hold only their first modality and their
    label; with a pipeline that reads all five files, the dataset of
    [train_dataloader] then fails while it fills its cache. *)
Example loaders_incomplete_patients :
  let os := Examples.os_patients ["c"; "a"; "b"] in
  let st' := (setup Examples.lcg (Glob.file_system os) Examples.fresh).2 in
  (setup Examples.lcg (Glob.file_system os) Examples.fresh).1 = Ok ()
  ∧ train_dataloader (Examples.reading os) (self st')
    = Raise (RuntimeError "applying transform")
  ∧ val_dataloader (Examples.reading os) (self st')
    = Raise (RuntimeError "applying transform").
Proof. vm_compute. repeat split. Qed.

(** ** C9: the fields after a failure *)

(** C9: whenever [setup] raises, the object is left as it was, so
    [train_files] and [val_files] keep their prior values (the empty lists
    on an object just built by [init]).  The failure is either the
    [FileNotFoundError] of line 46, with no directory found, or the
    [ValueError] of the split call, which for any realistic number of
    records means fewer than two valid ones. *)
Theorem C9_fields_kept_on_failure (G : BitGenerator) (fs : FileSystem)
    (st st' : State) (e : exn) :
  let dirs := patient_dirs fs (data_dir (self st)) in
  setup G fs st = (Raise e, st') →
  train_files (self st') = train_files (self st)
  ∧ val_files (self st') = val_files (self st)
  ∧ self st' = self st
  ∧ (e = FileNotFoundError (msg_not_found (data_dir (self st))) ∧ dirs = []
     ∨ e = ValueError ∧ dirs ≠ []
       ∧ Sklearn.train_test_split G (scan fs dirs) Float64.lit_0_2 42
         = Raise ValueError
       ∧ ((Z.of_nat (length (scan fs dirs)) < 2 ^ 50)%Z →
          length (scan fs dirs) < 2))
  ∧ (∀ d b n c, self st = init d b n c →
       train_files (self st') = [] ∧ val_files (self st') = []).
Proof.
  intros dirs Hs. apply setup_Raise in Hs as [Hself Hcase]. fold dirs in Hcase.
  rewrite Hself. split_and!; try done.
  - destruct Hcase as [(-> & -> & _)|(-> & Hne & Hsplit)]; [by left|right].
    split_and!; try done. intros Hb.
    destruct (decide (length (scan fs dirs) < 2)) as [|Hge]; [done|].
    apply train_test_split_Raise in Hsplit as [_ Hv].
    rewrite validate_shuffle_split_0_2 in Hv by lia. done.
  - by intros d b n c ->.
Qed.

Lemma C9_fields_kept_on_failure_witness :
  let fs := Glob.file_system Examples.os_one_valid in
  let st := Examples.fresh in
  let st' := printed Examples.fresh [msg_found 1] in
  let e := ValueError in
  let dirs := patient_dirs fs (data_dir (self st)) in
  setup Examples.lcg fs st = (Raise e, st')
  ∧ train_files (self st') = train_files (self st)
  ∧ val_files (self st') = val_files (self st)
  ∧ self st' = self st
  ∧ (e = FileNotFoundError (msg_not_found (data_dir (self st))) ∧ dirs = []
     ∨ e = ValueError ∧ dirs ≠ []
       ∧ Sklearn.train_test_split Examples.lcg (scan fs dirs) Float64.lit_0_2 42
         = Raise ValueError
       ∧ ((Z.of_nat (length (scan fs dirs)) < 2 ^ 50)%Z →
          length (scan fs dirs) < 2))
  ∧ (∀ d b n c, self st = init d b n c →
       train_files (self st') = [] ∧ val_files (self st') = []).
Proof.
  split; [reflexivity|].
  apply (C9_fields_kept_on_failure Examples.lcg
           (Glob.file_system Examples.os_one_valid) Examples.fresh
           (printed Examples.fresh [msg_found 1]) ValueError).
  reflexivity.
Defined.

(** ** C10: the loaders before [setup] *)

(** C10, as stated, fails: on an object just built by [init],
    [train_dataloader] raises.  Its dataset holds the empty list, and a
    [DataLoader] built with [shuffle=True] rejects an empty dataset. *)
Lemma C10_counterexample :
  train_dataloader (Examples.reading Examples.os_empty)
    (init "data" default_batch_size default_num_workers default_cache_rate)
  = Raise ValueError.
Proof. reflexivity. Qed.

(** C10, amended: on an object just built by [init], neither method looks at
    the disk (none takes a file system, and the pipeline is run on no
    record) or raises the no-data failure.
    [val_dataloader] returns a loader over the empty list, with batch size 1
    and no shuffling, whenever the worker count is not negative;
    [train_dataloader] builds its dataset over the empty list and then fails
    with the [ValueError] of the shuffling loader. *)
Theorem C10_loaders_before_setup (T : Monai.Pipeline) (d : string) (b n : Z)
    (c : Float64.t) :
  let m := init d b n c in
  train_dataloader T m = Raise ValueError
  ∧ (∀ msg, val_dataloader T m ≠ Raise (FileNotFoundError msg))
  ∧ ((0 ≤ n)%Z →
     val_dataloader T m
     = Ok {| Torch.dataset := {| Monai.data := [];
                                 Monai.transform := get_val_transforms;
                                 Monai.cache_rate := c;
                                 Monai.num_workers := n |};
             Torch.batch_size := 1; Torch.shuffle := false;
             Torch.num_workers := n; Torch.pin_memory := false |}).
Proof.
  unfold train_dataloader, val_dataloader. simpl.
  rewrite !MonaiFacts.CacheDataset_init_nil. simpl.
  unfold Torch.DataLoader_init. simpl.
  split_and!.
  - by destruct (n <? 0)%Z.
  - intros msg. by destruct (n <? 0)%Z.
  - intros Hn. by destruct (Z.ltb_spec n 0); [lia|].
Qed.

(** * Further properties of [setup] and of the loaders *)

(** ** Worlds used below *)

Module MoreExamples.

(** Two complete patient folders, an incomplete one, a hidden directory and
    a stray file. *)
Definition os_mixed : Glob.OS :=
  Examples.kernel
    [("data", ["b"; ".git"; "a"; "c"; "notes.txt"]);
     ("data/a", []); ("data/b", []); ("data/c", []); ("data/.git", [])]
    ["data/a/a-t1n.nii.gz"; "data/a/a-seg.nii.gz";
     "data/b/b-t1n.nii.gz"; "data/b/b-seg.nii.gz";
     "data/c/c-t1n.nii.gz"; "data/notes.txt"].

(** A disk that holds neither the incomplete folder nor the stray file. *)
Definition os_clean : Glob.OS :=
  Examples.kernel
    [("data", ["b"; ".git"; "a"]);
     ("data/a", []); ("data/b", []); ("data/.git", [])]
    ["data/a/a-t1n.nii.gz"; "data/a/a-seg.nii.gz";
     "data/b/b-t1n.nii.gz"; "data/b/b-seg.nii.gz"].

(** A disk on which the root does not exist. *)
Definition os_no_root : Glob.OS := Examples.kernel [] [].

(** A root that holds only a hidden directory and a regular file. *)
Definition os_nothing_visible : Glob.OS :=
  Examples.kernel [("data", [".cache"; "notes.txt"]); ("data/.cache", [])]
                  ["data/notes.txt"].

End MoreExamples.

(** ** The order of [data_list] *)

Lemma StronglySorted_lookup_le {A} (R : relation A) `{!Reflexive R}
    (l : list A) (i j : nat) (x y : A) :
  StronglySorted R l → i ≤ j → l !! i = Some x → l !! j = Some y → R x y.
Proof.
  intros Hs. revert i j. induction Hs as [|z l Hs IH Hz]; intros i j Hij Hi Hj.
  { by rewrite lookup_nil in Hi. }
  destruct i as [|i], j as [|j]; simpl in *.
  - by simplify_eq.
  - simplify_eq. rewrite Forall_forall in Hz.
    by eapply Hz, list_elem_of_lookup_2.
  - lia.
  - eapply IH; [|done..]. lia.
Qed.

(** X1: the loop of lines 48-66 visits the directories in sorted order and
    appends, so [data_list] holds the records of the valid directories in
    the lexicographic order of their paths, and never more records than
    there are directories. *)
Theorem X1_data_list_order (fs : FileSystem) (d : string) :
  let dirs := patient_dirs fs d in
  scan fs dirs = record_of <$> filter (valid fs) dirs
  ∧ length (scan fs dirs) ≤ length dirs
  ∧ ∀ i j p q, i ≤ j →
      scan fs dirs !! i = Some (record_of p) →
      scan fs dirs !! j = Some (record_of q) →
      String.le p q.
Proof.
  intros dirs. split; [apply scan_spec|]. split.
  { rewrite length_scan. apply length_filter. }
  intros i j p q Hij. rewrite scan_spec, !list_lookup_fmap.
  intros Hi Hj.
  destruct (filter (valid fs) dirs !! i) as [p'|] eqn:Hp; [|done].
  destruct (filter (valid fs) dirs !! j) as [q'|] eqn:Hq; [|done].
  simpl in Hi, Hj.
  assert (p' = p) as -> by (apply record_of_inj; congruence).
  assert (q' = q) as -> by (apply record_of_inj; congruence).
  eapply (StronglySorted_lookup_le String.le); [|done..].
  apply StronglySorted_filter, patient_dirs_StronglySorted.
Qed.

(** ** What [setup] prints *)

(** X2: [setup] only appends to the standard output: nothing when it raises
    [FileNotFoundError], the line with the count of valid patients when the
    split raises, and that line followed by the line with the two sizes when
    it returns; the two sizes printed add up to the count printed.  [setup]
    raises nothing else. *)
Theorem X2_print_protocol (G : BitGenerator) (fs : FileSystem) (st : State) :
  let n := length (scan fs (patient_dirs fs (data_dir (self st)))) in
  let st' := (setup G fs st).2 in
  match (setup G fs st).1 with
  | Ok _ =>
      stdout st'
      = stdout st ++ [msg_found n;
                      msg_split (length (train_files (self st')))
                                (length (val_files (self st')))]
      ∧ length (train_files (self st')) + length (val_files (self st')) = n
  | Raise (FileNotFoundError msg) =>
      stdout st' = stdout st ∧ msg = msg_not_found (data_dir (self st))
  | Raise ValueError => stdout st' = stdout st ++ [msg_found n]
  | Raise IndexError | Raise (RuntimeError _) => False
  end.
Proof.
  intros n st'. subst st'. rewrite setup_unfold. cbv zeta. fold n.
  destruct (length (patient_dirs fs (data_dir (self st))) =? 0); [done|].
  destruct (Sklearn.train_test_split G _ _ _) as [[train val]|e] eqn:H; simpl.
  - split; [done|]. apply train_test_split_Ok in H as [Hperm _].
    by rewrite <- length_app, Hperm.
  - by apply train_test_split_Raise in H as [-> _].
Qed.

(** ** What [setup] leaves alone *)

(** X3: whatever its outcome, [setup] changes no attribute of the object
    other than [train_files] and [val_files]. *)
Theorem X3_configuration_kept (G : BitGenerator) (fs : FileSystem) (st : State) :
  let m' := self (setup G fs st).2 in
  data_dir m' = data_dir (self st)
  ∧ batch_size m' = batch_size (self st)
  ∧ num_workers m' = num_workers (self st)
  ∧ cache_rate m' = cache_rate (self st).
Proof.
  cbv zeta. destruct (setup G fs st) as [[[]|e] st'] eqn:Hs; simpl.
  - apply setup_Ok in Hs as (_ & -> & _). done.
  - apply setup_Raise in Hs as [-> _]. done.
Qed.

(** ** The loaders after a successful [setup] *)

(** X4: after a [setup] that returned, the training list is not empty, so
    [train_dataloader] passes the empty-dataset check of the shuffling
    loader: when the transform pipeline accepts every stored record, the
    batch size is positive and the worker count is not negative, both loader
    methods return, over the two lists [setup] stored. *)
Theorem X4_loaders_after_setup (G : BitGenerator) (T : Monai.Pipeline)
    (fs : FileSystem) (st st' : State) :
  setup G fs st = (Ok (), st') →
  Forall (λ r, Monai.apply_cached T (get_train_transforms (64, 64, 64)%Z) r
               = Ok ()) (train_files (self st')) →
  Forall (λ r, Monai.apply_cached T get_val_transforms r = Ok ())
         (val_files (self st')) →
  (0 ≤ num_workers (self st))%Z → (0 < batch_size (self st))%Z →
  train_files (self st') ≠ []
  ∧ (∃ dl, train_dataloader T (self st') = Ok dl
           ∧ Monai.data (Torch.dataset dl) = train_files (self st')
           ∧ Torch.batch_size dl = batch_size (self st))
  ∧ (∃ dl, val_dataloader T (self st') = Ok dl
           ∧ Monai.data (Torch.dataset dl) = val_files (self st')).
Proof.
  intros Hs Htrain Hval Hn Hb.
  pose proof (setup_Ok G fs st st' Hs) as (Hsplit & Hself & _).
  cbv zeta in Hsplit.
  apply train_test_split_Ok in Hsplit as [_ Hv].
  apply validate_shuffle_split_Ok in Hv as [_ Hpos].
  assert (train_files (self st') ≠ []) as Hne.
  { intros H. rewrite H in Hpos. simpl in Hpos. lia. }
  assert (num_workers (self st') = num_workers (self st)) as Hnw by by rewrite Hself.
  assert (batch_size (self st') = batch_size (self st)) as Hbs by by rewrite Hself.
  split; [done|].
  unfold train_dataloader, val_dataloader. cbv zeta.
  rewrite !MonaiFacts.CacheDataset_init_Ok by done. simpl.
  unfold Torch.DataLoader_init. simpl. rewrite Hnw, Hbs.
  destruct (Z.ltb_spec (num_workers (self st)) 0); [lia|].
  destruct (Nat.eqb_spec (length (train_files (self st'))) 0) as [H0|_].
  { by apply nil_length_inv in H0. }
  destruct (Z.leb_spec (batch_size (self st)) 0); [lia|].
  split; eexists; split; done.
Qed.

Lemma X4_loaders_after_setup_witness :
  let T := Examples.reading Examples.os_six_patients in
  let fs := Glob.file_system Examples.os_six_patients in
  let st := Examples.fresh in
  let st' := (setup Examples.lcg fs st).2 in
  train_files (self st') ≠ []
  ∧ (∃ dl, train_dataloader T (self st') = Ok dl
           ∧ Monai.data (Torch.dataset dl) = train_files (self st')
           ∧ Torch.batch_size dl = batch_size (self st))
  ∧ (∃ dl, val_dataloader T (self st') = Ok dl
           ∧ Monai.data (Torch.dataset dl) = val_files (self st')).
Proof.
  apply (X4_loaders_after_setup Examples.lcg
           (Examples.reading Examples.os_six_patients)
           (Glob.file_system Examples.os_six_patients) Examples.fresh).
  - reflexivity.
  - vm_compute. repeat constructor.
  - vm_compute. repeat constructor.
  - vm_compute. discriminate.
  - reflexivity.
Defined.

(** ** When [setup] returns *)

(** X5: for any realistic number of records, [setup] returns exactly when
    at least two patient directories are valid; it raises
    [FileNotFoundError] exactly when the scan finds no directory, and the
    [ValueError] of the split exactly when there are directories but fewer
    than two valid ones. *)
Theorem X5_setup_outcome (G : BitGenerator) (fs : FileSystem) (st : State) :
  let dirs := patient_dirs fs (data_dir (self st)) in
  let n := length (scan fs dirs) in
  (Z.of_nat n < 2 ^ 50)%Z →
  ((setup G fs st).1 = Ok () ↔ 2 ≤ n)
  ∧ ((setup G fs st).1
     = Raise (FileNotFoundError (msg_not_found (data_dir (self st))))
     ↔ dirs = [])
  ∧ ((setup G fs st).1 = Raise ValueError ↔ dirs ≠ [] ∧ n < 2).
Proof.
  intros dirs n Hb.
  destruct (decide (dirs = [])) as [Hd|Hd].
  - rewrite (setup_no_dirs G fs st Hd). simpl.
    assert (n = 0) as Hn by (unfold n; by rewrite Hd).
    split_and!; split; intros; destruct_and?; try done; lia.
  - destruct (decide (n < 2)) as [Hn|Hn].
    + rewrite (setup_too_few G fs st Hd Hn). simpl.
      split_and!; split; intros; destruct_and?; try done; lia.
    + destruct (setup_enough G fs st) as (train & val & -> & _);
        [fold dirs n; lia|done|].
      simpl. split_and!; split; intros; destruct_and?; try done; lia.
Qed.

Lemma X5_setup_outcome_witness :
  let fs := Glob.file_system MoreExamples.os_mixed in
  let st := Examples.fresh in
  let dirs := patient_dirs fs (data_dir (self st)) in
  let n := length (scan fs dirs) in
  ((setup Examples.lcg fs st).1 = Ok () ↔ 2 ≤ n)
  ∧ ((setup Examples.lcg fs st).1
     = Raise (FileNotFoundError (msg_not_found (data_dir (self st))))
     ↔ dirs = [])
  ∧ ((setup Examples.lcg fs st).1 = Raise ValueError ↔ dirs ≠ [] ∧ n < 2).
Proof.
  apply (X5_setup_outcome Examples.lcg (Glob.file_system MoreExamples.os_mixed)
           Examples.fresh).
  vm_compute. reflexivity.
Defined.

(** ** The two lists on an arbitrary root *)

(** X6: on any root whose listing names each entry once, with invalid
    folders, hidden entries and stray files allowed, a [setup] that returns
    leaves two lists without a repeated record; the record of a listed
    directory is in exactly one of them when the directory is valid, and in
    neither when it is not. *)
Theorem X6_partition_any_root (G : BitGenerator) (fs : FileSystem)
    (st st' : State) :
  let listing := glob_glob fs (PosixPath.join (data_dir (self st)) "*") in
  let train := train_files (self st') in
  let val := val_files (self st') in
  NoDup listing →
  setup G fs st = (Ok (), st') →
  NoDup (train ++ val)
  ∧ (∀ p, p ∈ listing → os_path_isdir fs p = true → valid fs p →
       record_of p ∈ train ∧ record_of p ∉ val
       ∨ record_of p ∈ val ∧ record_of p ∉ train)
  ∧ (∀ p, ¬ (p ∈ listing ∧ os_path_isdir fs p = true ∧ valid fs p) →
       record_of p ∉ train ++ val).
Proof.
  intros listing train val Hnd Hs.
  apply setup_Ok in Hs as (_ & _ & Hperm). fold train val in Hperm.
  set (dirs := patient_dirs fs (data_dir (self st))) in *.
  assert (NoDup (train ++ val)) as Hnd'.
  { rewrite Hperm. by apply NoDup_scan, NoDup_patient_dirs. }
  apply NoDup_app in Hnd' as Happ. destruct Happ as (_ & Hdisj & _).
  split; [done|]. split.
  - intros p Hp Hd Hv.
    assert (record_of p ∈ train ++ val) as Hin.
    { rewrite Hperm, record_of_elem_of_scan. split; [|done].
      by apply elem_of_patient_dirs. }
    apply elem_of_app in Hin as [Hin|Hin]; [left|right]; split; try done.
    + by apply Hdisj.
    + intros Ht. by apply (Hdisj _ Ht).
  - intros p Hn. rewrite Hperm, record_of_elem_of_scan.
    unfold dirs. rewrite elem_of_patient_dirs. tauto.
Qed.

Lemma X6_partition_any_root_witness :
  let fs := Glob.file_system MoreExamples.os_mixed in
  let st := Examples.fresh in
  let st' := (setup Examples.lcg fs st).2 in
  let listing := glob_glob fs (PosixPath.join (data_dir (self st)) "*") in
  let train := train_files (self st') in
  let val := val_files (self st') in
  NoDup (train ++ val)
  ∧ (∀ p, p ∈ listing → os_path_isdir fs p = true → valid fs p →
       record_of p ∈ train ∧ record_of p ∉ val
       ∨ record_of p ∈ val ∧ record_of p ∉ train)
  ∧ (∀ p, ¬ (p ∈ listing ∧ os_path_isdir fs p = true ∧ valid fs p) →
       record_of p ∉ train ++ val).
Proof.
  apply (X6_partition_any_root Examples.lcg
           (Glob.file_system MoreExamples.os_mixed) Examples.fresh).
  - compute_done.
  - reflexivity.
Defined.

(** ** The files of a stored record *)

(** X7: every record that [setup] stores comes from a listed directory and
    carries exactly four image paths and a label path; its first image file
    and its label file were found on disk by the test of line 62. *)
Theorem X7_stored_records_exist (G : BitGenerator) (fs : FileSystem)
    (st st' : State) (r : PatientRecord) :
  setup G fs st = (Ok (), st') →
  r ∈ train_files (self st') ++ val_files (self st') →
  ∃ p t1 t1ce t2 flair,
    p ∈ glob_glob fs (PosixPath.join (data_dir (self st)) "*")
    ∧ os_path_isdir fs p = true
    ∧ r = record_of p
    ∧ image r = [t1; t1ce; t2; flair]
    ∧ os_path_exists fs t1 = true
    ∧ os_path_exists fs (label r) = true.
Proof.
  intros Hs Hr. apply setup_Ok in Hs as (_ & _ & Hperm).
  rewrite Hperm, elem_of_scan in Hr.
  destruct Hr as (p & -> & [Hp Hd]%elem_of_patient_dirs & [Ht1 Hseg]).
  exists p. do 4 eexists. split_and!; try done.
Qed.

Lemma X7_stored_records_exist_witness :
  let fs := Glob.file_system MoreExamples.os_mixed in
  let st := Examples.fresh in
  let r := record_at "data" "a" in
  ∃ p t1 t1ce t2 flair,
    p ∈ glob_glob fs (PosixPath.join (data_dir (self st)) "*")
    ∧ os_path_isdir fs p = true
    ∧ r = record_of p
    ∧ image r = [t1; t1ce; t2; flair]
    ∧ os_path_exists fs t1 = true
    ∧ os_path_exists fs (label r) = true.
Proof.
  apply (X7_stored_records_exist Examples.lcg
           (Glob.file_system MoreExamples.os_mixed) Examples.fresh
           (setup Examples.lcg (Glob.file_system MoreExamples.os_mixed)
              Examples.fresh).2).
  - reflexivity.
  - compute_done.
Defined.

(** ** No two paths coincide *)

(** X8: the five file names built on lines 55-59 never collide: within a
    patient the five paths are pairwise different, and a path of one patient
    directory is never a path of another one, whatever the two directory
    strings are. *)
Theorem X8_paths_distinct (p q x : string) :
  x ∈ label (record_of p) :: image (record_of p) →
  x ∈ label (record_of q) :: image (record_of q) →
  p = q ∧ NoDup (label (record_of p) :: image (record_of p)).
Proof.
  intros Hp Hq. split.
  - simpl in Hp, Hq. rewrite !elem_of_cons, elem_of_nil in Hp, Hq.
    destruct Hp as [->|[->|[->|[->|[->|[]]]]]];
      destruct Hq as [E|[E|[E|[E|[E|[]]]]]];
      by apply pat_file_inj in E as [? _].
  - simpl. repeat (apply NoDup_cons; split);
      [..|apply NoDup_nil_2]; rewrite ?elem_of_cons, elem_of_nil;
      intros H; repeat destruct H as [H|H]; try done;
      by apply pat_file_inj in H as [_ ?].
Qed.

Lemma X8_paths_distinct_witness :
  let p := "data/a" in
  "data/a/a-t2w.nii.gz" ∈ label (record_of p) :: image (record_of p)
  ∧ p = "data/a" ∧ NoDup (label (record_of p) :: image (record_of p)).
Proof.
  split; [compute_done|].
  apply (X8_paths_distinct "data/a" "data/a" "data/a/a-t2w.nii.gz");
    compute_done.
Defined.

(** ** Entries that do not count *)

Lemma filter_none {A} (P : A → Prop) `{∀ x, Decision (P x)} (l : list A) :
  Forall (λ x, ¬ P x) l → filter P l = [].
Proof.
  induction 1 as [|x l Hx _ IH]; [done|]. by rewrite filter_cons_False.
Qed.

(** Entries that fail the filter do not show in the sorted, filtered list,
    and the filter may change outside the entries that were there before. *)
Lemma filter_sorted_extras (P1 P2 : string → Prop)
    `{∀ x, Decision (P1 x)} `{∀ x, Decision (P2 x)}
    (l1 l2 extras : list string) :
  l2 ≡ₚ extras ++ l1 → Forall (λ x, ¬ P2 x) extras →
  (∀ x, x ∈ l1 → (P2 x ↔ P1 x)) →
  filter P2 (sorted l2) = filter P1 (sorted l1).
Proof.
  intros Hperm Hex Hiff.
  apply (StronglySorted_unique String.le);
    [apply StronglySorted_filter, sorted_StronglySorted..|].
  rewrite !sorted_Permutation, Hperm, filter_app, filter_none by done. simpl.
  by rewrite (filter_ext_in P1 P2 l1).
Qed.

(** X9: entries of the root that are not directories never influence
    [setup], and directories that fail the test of line 62 are skipped
    silently.  Take a root and the same root with further entries, the
    entries that were already there being the same directories with the
    same [t1n] and [seg] files as before (the two disks may differ anywhere
    else, at the new entries above all): if each new entry is not a
    directory or fails the test, [setup] has the same outcome on both,
    provided the first root holds a directory or no new entry is a
    directory. *)
Theorem X9_ignored_entries (G : BitGenerator) (fs1 fs2 : FileSystem)
    (st : State) (extras : list string) :
  let pattern := PosixPath.join (data_dir (self st)) "*" in
  glob_glob fs2 pattern ≡ₚ extras ++ glob_glob fs1 pattern →
  (∀ p, p ∈ glob_glob fs1 pattern →
     os_path_isdir fs2 p = os_path_isdir fs1 p
     ∧ os_path_exists fs2 (pat_file p "-t1n.nii.gz")
       = os_path_exists fs1 (pat_file p "-t1n.nii.gz")
     ∧ os_path_exists fs2 (pat_file p "-seg.nii.gz")
       = os_path_exists fs1 (pat_file p "-seg.nii.gz")) →
  (∀ x, x ∈ extras → os_path_isdir fs2 x = false ∨ ¬ valid fs2 x) →
  (patient_dirs fs1 (data_dir (self st)) ≠ []
   ∨ ∀ x, x ∈ extras → os_path_isdir fs2 x = false) →
  setup G fs2 st = setup G fs1 st.
Proof.
  intros pattern Hperm Hsame Hextras Hcase.
  set (d := data_dir (self st)) in *.
  assert (scan fs2 (patient_dirs fs2 d) = scan fs1 (patient_dirs fs1 d)) as Hscan.
  { rewrite !scan_spec. f_equal. unfold patient_dirs. fold pattern.
    rewrite !list_filter_filter.
    apply (filter_sorted_extras _ _ _ _ extras); [done|..].
    - apply Forall_forall. intros x Hx [Hv Hd].
      destruct (Hextras x Hx); [congruence|done].
    - intros x Hx. destruct (Hsame x Hx) as (Hd & Ht1 & Hseg).
      unfold valid. by rewrite Hd, Ht1, Hseg. }
  assert ((length (patient_dirs fs2 d) =? 0) = (length (patient_dirs fs1 d) =? 0))
    as Hlen.
  { destruct Hcase as [Hne|Hnd].
    - destruct (Nat.eqb_spec (length (patient_dirs fs1 d)) 0) as [H0|_].
      { by apply nil_length_inv in H0. }
      apply Nat.eqb_neq. intros H0%nil_length_inv.
      destruct (patient_dirs fs1 d) as [|p l] eqn:E; [done|].
      assert (p ∈ patient_dirs fs2 d) as Hp; [|by rewrite H0 in Hp; inv Hp].
      assert (p ∈ patient_dirs fs1 d) as Hp1 by (rewrite E; by left).
      apply elem_of_patient_dirs in Hp1 as [Hp1 Hd1].
      apply elem_of_patient_dirs. fold pattern in Hp1 |- *.
      destruct (Hsame p Hp1) as (Hd & _).
      rewrite Hperm, elem_of_app, Hd. auto.
    - f_equal. f_equal. unfold patient_dirs. fold pattern.
      apply (filter_sorted_extras _ _ _ _ extras); [done|..].
      + apply Forall_forall. intros x Hx Hd. rewrite (Hnd x Hx) in Hd. done.
      + intros x Hx. destruct (Hsame x Hx) as (-> & _). done. }
  rewrite !setup_unfold. cbv zeta. fold d. by rewrite Hscan, Hlen.
Qed.

(** [os_clean] holds the two complete folders only; [os_mixed] holds in
    addition the incomplete folder [data/c] and the file [data/notes.txt]. *)
Lemma X9_ignored_entries_witness :
  let fs1 := Glob.file_system MoreExamples.os_clean in
  let fs2 := Glob.file_system MoreExamples.os_mixed in
  Glob.isdir MoreExamples.os_clean "data/c" = false
  ∧ Glob.exists_ MoreExamples.os_clean "data/notes.txt" = false
  ∧ setup Examples.lcg fs2 Examples.fresh = setup Examples.lcg fs1 Examples.fresh.
Proof.
  split; [reflexivity|]. split; [reflexivity|].
  apply (X9_ignored_entries Examples.lcg
           (Glob.file_system MoreExamples.os_clean)
           (Glob.file_system MoreExamples.os_mixed)
           Examples.fresh ["data/c"; "data/notes.txt"]).
  - compute_done.
  - apply Forall_forall. compute_done.
  - apply Forall_forall. compute_done.
  - left. vm_compute. discriminate.
Defined.

(** ** A root without a visible directory *)

(** X10: under a plain root, the check of line 45 fails exactly when every
    name listed in the root is hidden or is not a directory; in particular a
    root that does not exist or cannot be read (the error of the listing is
    swallowed by [glob.glob]) gives the same [FileNotFoundError] as an empty
    one, with nothing printed and the object unchanged. *)
Theorem X10_no_visible_directory (G : BitGenerator) (os : Glob.OS) (st : State) :
  let d := data_dir (self st) in
  let fs := Glob.file_system os in
  Glob.plain_root d →
  (patient_dirs fs d = [] ↔
   ∀ name, name ∈ Glob.listdir os d →
     Glob.ishidden name = true ∨ Glob.isdir os (PosixPath.join d name) = false)
  ∧ (patient_dirs fs d = [] →
     setup G fs st = (Raise (FileNotFoundError (msg_not_found d)), st))
  ∧ (Glob.scandir os d = None → patient_dirs fs d = []).
Proof.
  intros d fs Hplain.
  assert (∀ p, p ∈ patient_dirs fs d ↔
            ∃ name, name ∈ Glob.listdir os d ∧ Glob.ishidden name = false
                    ∧ p = PosixPath.join d name ∧ Glob.isdir os p = true) as Hdirs.
  { intros p. rewrite elem_of_patient_dirs. simpl.
    rewrite GlobFacts.glob_plain_root, list_elem_of_fmap by done.
    setoid_rewrite GlobFacts.elem_of_glob1_star. split.
    - intros [(name & -> & ? & ?) ?]. eauto 10.
    - intros (name & ? & ? & -> & ?). eauto 10. }
  assert (patient_dirs fs d = [] ↔
   ∀ name, name ∈ Glob.listdir os d →
     Glob.ishidden name = true ∨ Glob.isdir os (PosixPath.join d name) = false)
    as Hiff.
  { split.
    - intros Hnil name Hname.
      destruct (Glob.ishidden name) eqn:Hh; [by left|right].
      destruct (Glob.isdir os (PosixPath.join d name)) eqn:Hd; [|done].
      assert (PosixPath.join d name ∈ patient_dirs fs d) as Hin.
      { apply Hdirs. eauto 10. }
      rewrite Hnil in Hin. inv Hin.
    - intros Hall. apply elem_of_nil_inv. intros p Hp.
      apply Hdirs in Hp as (name & Hname & Hh & -> & Hd).
      destruct (Hall name Hname); congruence. }
  split; [done|]. split; [apply setup_no_dirs|].
  intros Hnone. apply Hiff. intros name. unfold Glob.listdir.
  destruct Hplain as (Hne%String.eqb_neq & _). rewrite Hne, Hnone.
  by intros ?%elem_of_nil.
Qed.

Lemma X10_no_visible_directory_witness :
  let os := MoreExamples.os_no_root in
  let st := Examples.fresh in
  let d := data_dir (self st) in
  let fs := Glob.file_system os in
  (patient_dirs fs d = [] ↔
   ∀ name, name ∈ Glob.listdir os d →
     Glob.ishidden name = true ∨ Glob.isdir os (PosixPath.join d name) = false)
  ∧ (patient_dirs fs d = [] →
     setup Examples.lcg fs st = (Raise (FileNotFoundError (msg_not_found d)), st))
  ∧ (Glob.scandir os d = None → patient_dirs fs d = []).
Proof.
  apply (X10_no_visible_directory Examples.lcg MoreExamples.os_no_root
           Examples.fresh).
  unfold Glob.plain_root. compute_done.
Defined.

(** A root that exists but shows nothing: the same failure. *)
Example setup_nothing_visible :
  setup Examples.lcg (Glob.file_system MoreExamples.os_nothing_visible)
    Examples.fresh
  = (Raise (FileNotFoundError (msg_not_found "data")), Examples.fresh).
Proof. reflexivity. Qed.

(** ** A trailing separator on the root *)

(** X11: writing the root with one trailing separator changes nothing but
    the text of the [FileNotFoundError]: line 39 builds the same pattern,
    so the same directories are scanned, [setup] returns in the same cases
    and stores the same two lists. *)
Theorem X11_trailing_separator (G : BitGenerator) (fs : FileSystem)
    (d : string) (b n : Z) (c : Float64.t) (out : list string) :
  let st1 := {| self := init d b n c; stdout := out |} in
  let st2 := {| self := init (d +:+ "/") b n c; stdout := out |} in
  d ≠ "" → PosixPath.endswith_sep d = false →
  patient_dirs fs (d +:+ "/") = patient_dirs fs d
  ∧ ((setup G fs st2).1 = Ok () ↔ (setup G fs st1).1 = Ok ())
  ∧ train_files (self (setup G fs st2).2) = train_files (self (setup G fs st1).2)
  ∧ val_files (self (setup G fs st2).2) = val_files (self (setup G fs st1).2)
  ∧ ((setup G fs st1).1 = Raise ValueError → (setup G fs st2).1 = Raise ValueError).
Proof.
  intros st1 st2 Hne Hend.
  assert (PosixPath.join (d +:+ "/") "*" = PosixPath.join d "*") as Hpat.
  { unfold PosixPath.join. simpl.
    apply String.eqb_neq in Hne as ->. rewrite Hend.
    rewrite PosixPathFacts.endswith_sep_app by done. simpl.
    rewrite orb_true_r. by rewrite Str.app_assoc. }
  assert (patient_dirs fs (d +:+ "/") = patient_dirs fs d) as Hd.
  { unfold patient_dirs. by rewrite Hpat. }
  split; [done|].
  subst st1 st2. rewrite !setup_unfold. cbv zeta. simpl. rewrite Hd.
  destruct (length (patient_dirs fs d) =? 0); [done|].
  destruct (Sklearn.train_test_split G _ _ _) as [[train val]|e]; done.
Qed.

Lemma X11_trailing_separator_witness :
  let fs := Glob.file_system MoreExamples.os_mixed in
  let d := "data" in
  let st1 := {| self := init d 1 4 default_cache_rate; stdout := [] |} in
  let st2 := {| self := init (d +:+ "/") 1 4 default_cache_rate; stdout := [] |} in
  patient_dirs fs (d +:+ "/") = patient_dirs fs d
  ∧ ((setup Examples.lcg fs st2).1 = Ok () ↔ (setup Examples.lcg fs st1).1 = Ok ())
  ∧ train_files (self (setup Examples.lcg fs st2).2)
    = train_files (self (setup Examples.lcg fs st1).2)
  ∧ val_files (self (setup Examples.lcg fs st2).2)
    = val_files (self (setup Examples.lcg fs st1).2)
  ∧ ((setup Examples.lcg fs st1).1 = Raise ValueError →
     (setup Examples.lcg fs st2).1 = Raise ValueError).
Proof.
  apply (X11_trailing_separator Examples.lcg
           (Glob.file_system MoreExamples.os_mixed) "data" 1 4
           default_cache_rate []).
  - discriminate.
  - reflexivity.
Defined.

(** ** The proportion of the split *)

(** X12: on any root, for any realistic number [n] of valid records, a
    [setup] that returns keeps [ceil(n / 5)] records for validation and the
    other [floor(4 n / 5)] for training: the validation list is never empty
    and never longer than the training list. *)
Theorem X12_split_proportion (G : BitGenerator) (fs : FileSystem)
    (st st' : State) :
  let n := length (scan fs (patient_dirs fs (data_dir (self st)))) in
  let n_train := length (train_files (self st')) in
  let n_val := length (val_files (self st')) in
  setup G fs st = (Ok (), st') → (Z.of_nat n < 2 ^ 50)%Z →
  n_train + n_val = n
  ∧ n ≤ 5 * n_val < n + 5
  ∧ 5 * n_train ≤ 4 * n < 5 * n_train + 5
  ∧ 1 ≤ n_val ≤ n_train.
Proof.
  intros n n_train n_val Hs Hb.
  apply setup_Ok in Hs as (Hsplit & _ & _). cbv zeta in Hsplit. fold n in Hsplit.
  apply train_test_split_Ok in Hsplit as [Hperm Hv]. fold n in Hv.
  fold n_train n_val in Hv.
  assert (2 ≤ n) as Hn.
  { destruct (decide (n < 2)) as [Hlt|]; [|lia].
    by rewrite validate_shuffle_split_small in Hv. }
  rewrite validate_shuffle_split_0_2 in Hv by done.
  assert (n - (n + 4) / 5 = n_train ∧ (n + 4) / 5 = n_val) as [Ht Hval]
    by (split; congruence).
  pose proof (Nat.div_mod_eq (n + 4) 5).
  pose proof (Nat.mod_upper_bound (n + 4) 5). lia.
Qed.

Lemma X12_split_proportion_witness :
  let fs := Glob.file_system Examples.os_six_patients in
  let st := Examples.fresh in
  let st' := (setup Examples.lcg fs st).2 in
  let n := length (scan fs (patient_dirs fs (data_dir (self st)))) in
  let n_train := length (train_files (self st')) in
  let n_val := length (val_files (self st')) in
  n_train + n_val = n
  ∧ n ≤ 5 * n_val < n + 5
  ∧ 5 * n_train ≤ 4 * n < 5 * n_train + 5
  ∧ 1 ≤ n_val ≤ n_train.
Proof.
  apply (X12_split_proportion Examples.lcg
           (Glob.file_system Examples.os_six_patients) Examples.fresh).
  - reflexivity.
  - vm_compute. reflexivity.
Defined.
